(** * husky: frame codec, connection, command registry and router handlers

    A shallow embedding of the Go sources
      - gateway/gateway.go   (package cmd: TCPConn, CmdSet)
      - router/handle.go     (package main of the router: the C2S_* handlers)
      - util/copy.go         (package util: the kind classes of the deep copy)
    together with the properties of the specification that concern them.
    The registry behind the handlers (router.go) and the message-id router
    are not among these files: the former is modelled from the
    specification, the latter is a parameter of the dispatcher. *)

From Stdlib Require Import ZArith List Lia Strings.Byte String Ascii Bool.
From stdpp Require Import gmap strings list fin_maps.

Local Open Scope Z_scope.
Set Warnings "-register-all".

(** ** Go primitives used by the sources *)

(** [byte(x)]: conversion of an integer to uint8 keeps the low eight bits. *)
Definition byte_of_Z (z : Z) : byte :=
  match Byte.of_N (Z.to_N (z mod 256)) with
  | Some b => b
  | None => x00
  end.

Definition Z_of_byte (b : byte) : Z := Z.of_N (Byte.to_N b).

(** [uint16(x)]: conversion of an int to uint16 keeps the low sixteen bits. *)
Definition uint16 (z : Z) : Z := z mod 65536.

(** [encoding/binary.BigEndian] on a two byte window. *)
Module binary.

(** [Uint16(b) = uint16(b[1]) | uint16(b[0])<<8] *)
Definition Uint16 (b0 b1 : byte) : Z :=
  Z.lor (Z_of_byte b1) (Z.shiftl (Z_of_byte b0) 8).

(** [PutUint16(b, v)]: [b[0] = byte(v >> 8); b[1] = byte(v)] *)
Definition PutUint16 (v : Z) : byte * byte :=
  (byte_of_Z (Z.shiftr v 8), byte_of_Z v).

End binary.

(** [make([]byte, n)]: a zeroed buffer. *)
Definition make_bytes (n : nat) : list byte := repeat x00 n.

(** [copy(dst[off:], src)]: copies [min(len(dst)-off, len(src))] bytes. *)
Definition copy_at (dst : list byte) (off : nat) (src : list byte) : list byte :=
  let k := Nat.min (length dst - off) (length src) in
  take off dst ++ take k src ++ drop (off + k) dst.

(** Errors of package cmd and of the library calls it makes. *)
Inductive error : Type :=
| EOF                                  (* io.EOF *)
| ErrUnexpectedEOF                     (* io.ErrUnexpectedEOF *)
| errTooLargeMessage
| errInvalidMessageID                  (* errors.New("invalid message ID") *)
| errors_New (msg : string)
| errUnmarshal (msg : string)          (* an error of json.Unmarshal *)
| AddrError (why addr : string).       (* net.AddrError *)

Global Instance error_eq_dec : EqDecision error.
Proof. solve_decision. Defined.

(** [io.ReadFull(r, buf)] with [len(buf) = n], over the bytes [r] that the
    peer delivers before the stream ends.  On a short stream the bytes that
    did arrive are consumed and left at the front of the buffer. *)
Definition ReadFull (n : nat) (r : list byte)
  : list byte * option error * list byte :=
  if (length r <? n)%nat
  then (r ++ make_bytes (n - length r),
        Some (if (length r =? 0)%nat then EOF else ErrUnexpectedEOF),
        [])
  else (take n r, None, drop n r).

(** ** Package cmd (gateway/gateway.go) *)
Module cmd.

Definition maxMessageSize : Z := Z.shiftl 32 10.   (* 32K *)
Definition sendQueueSize : Z := Z.shiftl 16 10.

Definition RawMessage : Z := 0x01.
Definition CloseMessage : Z := 0xf0.
Definition PingMessage : Z := 0xf1.
Definition PongMessage : Z := 0xf2.
Definition AuthMessage : Z := 0xf3.

(** The transport socket [net.Conn]: the peer's address, the bytes still to
    be read and the bytes written so far. *)
Record NetConn : Type := mkNetConn {
  remote : string;
  incoming : list byte;
  outgoing : list byte
}.

(** A buffered channel [chan []byte]. *)
Record chan : Type := mkChan {
  chan_cap : nat;
  chan_buf : list (list byte);
  chan_closed : bool
}.

Record TCPConn : Type := mkTCPConn {
  rwc : NetConn;
  ssid : string;
  send : chan;
  isClose : bool
}.

Definition set_rwc (c : TCPConn) (r : NetConn) : TCPConn :=
  {| rwc := r; ssid := ssid c; send := send c; isClose := isClose c |}.
Definition set_send (c : TCPConn) (s : chan) : TCPConn :=
  {| rwc := rwc c; ssid := ssid c; send := s; isClose := isClose c |}.
Definition set_isClose (c : TCPConn) (b : bool) : TCPConn :=
  {| rwc := rwc c; ssid := ssid c; send := send c; isClose := b |}.
Definition set_incoming (r : NetConn) (bs : list byte) : NetConn :=
  {| remote := remote r; incoming := bs; outgoing := outgoing r |}.
Definition set_outgoing (r : NetConn) (bs : list byte) : NetConn :=
  {| remote := remote r; incoming := incoming r; outgoing := bs |}.

Definition RemoteAddr (c : TCPConn) : string := remote (rwc c).

(** [io.ReadFull(c.rwc, buf)] *)
Definition read_rwc (n : nat) (c : TCPConn)
  : list byte * option error * TCPConn :=
  let '(buf, err, rest) := ReadFull n (incoming (rwc c)) in
  (buf, err, set_rwc c (set_incoming (rwc c) rest)).

(** [func (c *TCPConn) ReadMessage() (mt uint8, buf []byte, err error)] *)
Definition ReadMessage (c : TCPConn)
  : (Z * list byte * option error) * TCPConn :=
  let '(head, err, c1) := read_rwc 3 c in
  match err with
  | Some e => ((0, [], Some e), c1)
  | None =>
    let n := binary.Uint16 (nth 1 head x00) (nth 2 head x00) in
    let mt := Z_of_byte (nth 0 head x00) in
    if (mt =? PingMessage) || (mt =? PongMessage) || (mt =? CloseMessage)
    then ((mt, [], None), c1)
    else if (mt =? AuthMessage) || (mt =? RawMessage)
    then
      if (0 <? n) && (n <? maxMessageSize)
      then
        let '(buf, err, c2) := read_rwc (Z.to_nat n) c1 in
        match err with
        | None => ((mt, buf, None), c2)
        | Some _ => ((mt, buf, Some (errors_New "invalid data")), c2)
        end
      else ((mt, [], Some (errors_New "invalid data")), c1)
    else ((mt, [], Some (errors_New "invalid data")), c1)
  end.

(** [func (c *TCPConn) NewMessageBytes(mt int, data []byte) ([]byte, error)] *)
Definition NewMessageBytes (mt : Z) (data : list byte)
  : list byte * option error :=
  if Z.of_nat (length data) >? maxMessageSize
  then ([], Some errTooLargeMessage)
  else
    let buf := make_bytes (length data + 3) in
    let buf := copy_at buf 0 [byte_of_Z mt; x00; x00] in
    let '(hi, lo) := binary.PutUint16 (uint16 (Z.of_nat (length data))) in
    let buf := copy_at buf 1 [hi; lo] in
    let buf := copy_at buf 3 data in
    (buf, None).

(** [c.rwc.Write(buf)].  What the socket does with the write is not in the
    hands of the caller and is given by [w]: [None] when the socket takes
    all of [buf] and returns a nil error, [Some (k, e)] when it takes [k]
    bytes of it (all of it when [k] is not less than its length) and
    returns the error [e]. *)
Definition write_rwc (w : option (nat * error)) (buf : list byte)
  (c : TCPConn) : (Z * option error) * TCPConn :=
  match w with
  | None =>
    ((Z.of_nat (length buf), None),
     set_rwc c (set_outgoing (rwc c) (outgoing (rwc c) ++ buf)))
  | Some (k, e) =>
    ((Z.of_nat (Nat.min k (length buf)), Some e),
     set_rwc c (set_outgoing (rwc c) (outgoing (rwc c) ++ take k buf)))
  end.

(** [func (c *TCPConn) writeMsg(mt int, msg []byte) (int, error)], with
    what the socket does with the write, if it comes to one. *)
Definition writeMsg (w : option (nat * error)) (mt : Z) (msg : list byte)
  (c : TCPConn) : (Z * option error) * TCPConn :=
  let '(buf, err) := NewMessageBytes mt msg in
  match err with
  | Some e => ((0, Some e), c)
  | None => write_rwc w buf c
  end.


(** *** Close and the send queue *)

(** A call either returns or panics. *)
Inductive outcome (A : Type) : Type :=
| Done (a : A)
| Panic (msg : string).
Arguments Done {A} a.
Arguments Panic {A} msg.

(** [close(ch)] *)
Definition chan_close (ch : chan) : outcome chan :=
  if chan_closed ch then Panic "close of closed channel"
  else Done {| chan_cap := chan_cap ch; chan_buf := chan_buf ch;
               chan_closed := true |}.

(** What a send [ch <- v] can do at the moment it is tried, with no
    receiver parked on the channel. *)
Inductive send_result : Type :=
| Sent (ch : chan)
| WouldBlock
| SendPanic.

Definition chan_send (ch : chan) (v : list byte) : send_result :=
  if chan_closed ch then SendPanic
  else if (length (chan_buf ch) <? chan_cap ch)%nat
  then Sent {| chan_cap := chan_cap ch; chan_buf := chan_buf ch ++ [v];
               chan_closed := chan_closed ch |}
  else WouldBlock.

(** [func (c *TCPConn) Close()] *)
Definition Close (c : TCPConn) : outcome TCPConn :=
  if isClose c then Done c
  else
    let c := set_isClose c true in
    match chan_close (send c) with
    | Done ch => Done (set_send c ch)
    | Panic m => Panic m
    end.

(** [func (c *TCPConn) Write(data []byte) error]; the [select] with a
    [default] arm takes the default when the send would block. *)
Definition Write (data : list byte) (c : TCPConn)
  : outcome (option error * TCPConn) :=
  if isClose c then Done (Some (errors_New "connection is closed"), c)
  else
    match chan_send (send c) data with
    | Sent ch => Done (None, set_send c ch)
    | WouldBlock => Done (Some (errors_New "write too busy"), c)
    | SendPanic => Panic "send on closed channel"
    end.

(** Connections live behind pointers; a table of them, by identity. *)
Abbreviation Conn := nat.

(** [c.Write(data)] for the connection [id] of a table. *)
Definition Write_on (id : Conn) (data : list byte) (cs : gmap nat TCPConn)
  : outcome (option error * gmap nat TCPConn) :=
  match cs !! id with
  | None => Panic "nil pointer dereference"
  | Some c =>
    match Write data c with
    | Done (err, c') => Done (err, <[id := c']> cs)
    | Panic m => Panic m
    end
  end.

(** [c.Close()] for the connection [id] of a table. *)
Definition Close_on (id : Conn) (cs : gmap nat TCPConn)
  : outcome (gmap nat TCPConn) :=
  match cs !! id with
  | None => Panic "nil pointer dereference"
  | Some c =>
    match Close c with
    | Done c' => Done (<[id := c']> cs)
    | Panic m => Panic m
    end
  end.

(** Repeated sends of the same data, stopping at the first one that does
    not return nil. *)
Fixpoint Write_n (n : nat) (data : list byte) (c : TCPConn)
  : outcome (option error * TCPConn) :=
  match n with
  | O => Done (None, c)
  | S n' =>
    match Write data c with
    | Done (None, c') => Write_n n' data c'
    | r => r
    end
  end.

(** [n] calls of [Close] in a row. *)
Fixpoint Close_n (n : nat) (c : TCPConn) : outcome TCPConn :=
  match n with
  | O => Done c
  | S n' =>
    match Close c with
    | Done c' => Close_n n' c'
    | Panic m => Panic m
    end
  end.

(** The connection [c] with the closed flag set and the send channel
    closed, everything else as in [c]. *)
Definition closed_conn (c : TCPConn) : TCPConn :=
  {| rwc := rwc c; ssid := ssid c;
     send := {| chan_cap := chan_cap (send c); chan_buf := chan_buf (send c);
                chan_closed := true |};
     isClose := true |}.

(** *** Command registry and dispatcher *)

Record Context : Type := mkContext {
  Out : Conn;
  Ssid : string;
  isGateway : bool
}.

(** The character class [[A-Za-z0-9]], on bytes. *)
Definition isAlnum (a : ascii) : bool :=
  let n := N_of_ascii a in
  ((48 <=? n) && (n <=? 57) || (65 <=? n) && (n <=? 90)
   || (97 <=? n) && (n <=? 122))%N.

(** [regexp.MatchString("^[A-Za-z0-9]+$", name)].  The pattern compiles, so
    the error is nil; without the multi-line flag [$] matches at the end of
    the text only, so the match holds for the non-empty strings all of whose
    bytes are in the class. *)
Definition MatchString_alnum (name : string) : bool * option error :=
  (match name with
   | EmptyString => false
   | _ => forallb isAlnum (list_ascii_of_string name)
   end, None).

Section Dispatch.

(** [Handler] is the type of handler functions; [Value] stands for the
    values of [interface{}] and [RType] for [reflect.Type]. *)
Variables Handler Value RType Session : Type.
(** [reflect.TypeOf] *)
Variable TypeOf : Value -> RType.
(** [reflect.New(t.Elem()).Interface()]; it panics when [t] has no
    element type. *)
Variable NewElem : RType -> outcome Value.
(** [json.Unmarshal(data, args)] *)
Variable Unmarshal : list byte -> Value -> Value * option error.
(** The message-id router [routeMessage(server, name)] *)
Variable routeMessage : string -> string -> string * string.
(** [GetSession(ssid)], nil when there is no such session *)
Variable GetSession : string -> option Session.
(** [defaultRawParser.Encode(pkg)] *)
Variable Encode : string -> Value -> list byte * option error.

(** [func (c *TCPConn) WriteJSON(name string, i interface{}) error] *)
Definition WriteJSON (name : string) (i : Value) (c : TCPConn)
  : outcome (option error * TCPConn) :=
  let '(buf, err) := Encode name i in
  match err with
  | Some e => Done (Some e, c)
  | None => Write buf c
  end.

Record cmdEntry : Type := mkCmdEntry {
  h : Handler;
  type_ : RType
}.

Record CmdSet : Type := mkCmdSet {
  services : gmap string bool;
  e : gmap string cmdEntry
}.

Definition defaultCmdSet : CmdSet := {| services := ∅; e := ∅ |}.

(** Go's [m[k]] on a [map[string]bool]: false for a missing key. *)
Definition service_flag (m : gmap string bool) (k : string) : bool :=
  default false (m !! k).

Definition RemoveService (name : string) (s : CmdSet) : CmdSet :=
  {| services := <[name := false]> (services s); e := e s |}.

Definition RegisterService (name : string) (s : CmdSet) : CmdSet :=
  {| services := <[name := true]> (services s); e := e s |}.

Definition RecoverService (name : string) (s : CmdSet) : CmdSet :=
  match services s !! name with
  | Some _ => {| services := <[name := true]> (services s); e := e s |}
  | None => s
  end.

(** [func (s *CmdSet) Bind(name string, h Handler, i interface{})];
    the second component is what goes to [log.Warnf]. *)
Definition Bind (name : string) (h0 : Handler) (i : Value) (s : CmdSet)
  : CmdSet * list string :=
  let warn :=
    match e s !! name with
    | Some _ => [name +:+ " exist"]
    | None => []
    end in
  let type_ := TypeOf i in
  ({| services := services s;
      e := <[name := {| h := h0; type_ := type_ |}]> (e s) |}, warn).

(** What [Handle] does besides returning: forward through a session, or
    submit to the execution queue. *)
Inductive Effect : Type :=
| SessionRoute (ss : Session) (serverName name : string) (data : list byte)
| Enqueue (ctx : Context) (h0 : Handler) (args : Value).

(** [func (s *CmdSet) Handle(ctx *Context, messageID string, data []byte) error] *)
Definition Handle (s : CmdSet) (ctx : Context) (messageID : string)
  (data : list byte) : outcome (option error) * list Effect :=
  (* an empty payload stands for the default JSON value *)
  let data :=
    if (length data =? 0)%nat then [x7b; x7d] (* "{}" *) else data in
  let '(serverName, name) := routeMessage "" messageID in
  let dispatch : outcome (option error) * list Effect :=
    let e0 := e s !! name in
    let isService := service_flag (services s) serverName in
    (* router *)
    if (0 <? String.length serverName)%nat
    then
      if isGateway ctx && negb isService
      then (Done (Some (errors_New "gateway try to route invalid service")),
            [])
      else
        match GetSession (Ssid ctx) with
        | Some ss => (Done None, [SessionRoute ss serverName name data])
        | None => (Done None, [])
        end
    else
      match e0 with
      | None => (Done (Some errInvalidMessageID), [])
      | Some e1 =>
        (* unmarshal argument *)
        match NewElem (type_ e1) with
        | Panic m => (Panic m, [])
        | Done args =>
          match Unmarshal data args with
          | (_, Some err) => (Done (Some err), [])
          | (args, None) => (Done None, [Enqueue ctx (h e1) args])
          end
        end
      end in
  (* message ids forwarded by a gateway may hold letters and digits only *)
  if isGateway ctx
  then
    let '(match_, err) := MatchString_alnum name in
    if bool_decide (err = None) && negb match_
    then (Done (Some (errors_New "invalid message id")), [])
    else dispatch
  else dispatch.

End Dispatch.

Arguments mkCmdEntry {Handler RType} h type_.
Arguments h {Handler RType} c.
Arguments type_ {Handler RType} c.
Arguments mkCmdSet {Handler RType} services e.
Arguments services {Handler RType} c.
Arguments e {Handler RType} c.
Arguments defaultCmdSet {Handler RType}.
Arguments RemoveService {Handler RType} name s.
Arguments RegisterService {Handler RType} name s.
Arguments RecoverService {Handler RType} name s.
Arguments Bind {Handler Value RType} TypeOf name h0 i s.
Arguments SessionRoute {Handler Value Session} ss serverName name data.
Arguments Enqueue {Handler Value Session} ctx h0 args.
Arguments Handle {Handler Value RType Session}
  NewElem Unmarshal routeMessage GetSession s ctx messageID data.

(** Modelled from the spec: [routeMessage] is defined outside the files at
    hand and the dispatcher takes it as given.  For concrete runs the routed
    identifier convention of the spec is used: [<serviceName>.<localName>],
    or a bare [<localName>] for local handling. *)
Fixpoint split_dot (s : string) : option (string * string) :=
  match s with
  | EmptyString => None
  | String a s' =>
    if Ascii.eqb a "." then Some (EmptyString, s')
    else match split_dot s' with
         | Some (sv, n) => Some (String a sv, n)
         | None => None
         end
  end.

Definition routeMessage_dotted (server name : string) : string * string :=
  match split_dot name with
  | Some (sv, n) => (sv, n)
  | None => (server, name)
  end.

(** *** Sequences of calls, and the state a connection is kept in *)

(** [n] frames read in a row, stopping at the first error. *)
Fixpoint ReadMessages (n : nat) (c : TCPConn)
  : list (Z * list byte) * option error * TCPConn :=
  match n with
  | O => ([], None, c)
  | S n' =>
    let '((mt, buf, err), c1) := ReadMessage c in
    match err with
    | Some e => ([], Some e, c1)
    | None =>
      let '(ms, err', c2) := ReadMessages n' c1 in
      ((mt, buf) :: ms, err', c2)
    end
  end.

(** The messages [msgs] written with [writeMsg] one after the other, stopping
    at the first error; each message comes with what the socket does with
    its write. *)
Fixpoint writeMsgs (msgs : list (option (nat * error) * (Z * list byte)))
  (c : TCPConn) : option error * TCPConn :=
  match msgs with
  | [] => (None, c)
  | (w, (mt, msg)) :: rest =>
    let '((_, err), c1) := writeMsg w mt msg c in
    match err with
    | Some e => (Some e, c1)
    | None => writeMsgs rest c1
    end
  end.

(** The data [ds] sent with [Write] one after the other, stopping at the
    first call that does not return nil. *)
Fixpoint Write_list (ds : list (list byte)) (c : TCPConn)
  : outcome (option error * TCPConn) :=
  match ds with
  | [] => Done (None, c)
  | d :: rest =>
    match Write d c with
    | Done (None, c') => Write_list rest c'
    | r => r
    end
  end.

(** The closed flag tells whether the send channel is closed, and the queue
    holds no more than its capacity. *)
Definition conn_ok (c : TCPConn) : bool :=
  Bool.eqb (isClose c) (chan_closed (send c))
  && (length (chan_buf (send c)) <=? chan_cap (send c))%nat.

(** [func funcClose(ctx *Context, i interface{})]: [ctx.Out.Close()], on the
    table of connections. *)
Definition funcClose (ctx : Context) (cs : gmap nat TCPConn)
  : outcome (gmap nat TCPConn) :=
  Close_on (Out ctx) cs.

End cmd.

(** ** Go's net.SplitHostPort *)
Module net.

(** [strings.IndexByte]: the first index of [c] in [s], or -1. *)
Fixpoint IndexByte (s : string) (c : ascii) : Z :=
  match s with
  | EmptyString => -1
  | String a s' =>
    if Ascii.eqb a c then 0
    else let i := IndexByte s' c in if i <? 0 then -1 else i + 1
  end.

(** [strings.LastIndexByte]: the last index of [c] in [s], or -1. *)
Fixpoint LastIndexByte (s : string) (c : ascii) : Z :=
  match s with
  | EmptyString => -1
  | String a s' =>
    let i := LastIndexByte s' c in
    if 0 <=? i then i + 1 else if Ascii.eqb a c then 0 else -1
  end.

Definition len (s : string) : Z := Z.of_nat (String.length s).

(** [s[i:j]], [s[i:]] and [s[i]] for indices within bounds. *)
Definition slice (s : string) (i j : Z) : string :=
  substring (Z.to_nat i) (Z.to_nat (j - i)) s.
Definition slice_from (s : string) (i : Z) : string := slice s i (len s).
Definition byte_at (s : string) (i : Z) : ascii :=
  default Ascii.zero (String.get (Z.to_nat i) s).

Definition missingPort : string := "missing port in address".
Definition tooManyColons : string := "too many colons in address".

(** [func SplitHostPort(hostport string) (host, port string, err error)] *)
Definition SplitHostPort (hostport : string)
  : string * string * option error :=
  let addrErr (why : string) : string * string * option error :=
    (""%string, ""%string, Some (AddrError why hostport)) in
  (* The port starts after the last colon. *)
  let i := LastIndexByte hostport ":" in
  if i <? 0 then addrErr missingPort
  else
    let bracketed : (string * string * option error) + (string * Z * Z) :=
      if Ascii.eqb (byte_at hostport 0) "[" then
        (* Expect the first ']' just before the last ':'. *)
        let end_ := IndexByte hostport "]" in
        if end_ <? 0 then inl (addrErr "missing ']' in address")
        else if end_ + 1 =? len hostport then inl (addrErr missingPort)
        else if end_ + 1 =? i then inr (slice hostport 1 end_, 1, end_ + 1)
        else if Ascii.eqb (byte_at hostport (end_ + 1)) ":"
             then inl (addrErr tooManyColons)
             else inl (addrErr missingPort)
      else
        let host := slice hostport 0 i in
        if 0 <=? IndexByte host ":" then inl (addrErr tooManyColons)
        else inr (host, 0, 0) in
    match bracketed with
    | inl r => r
    | inr (host, j, k) =>
      if 0 <=? IndexByte (slice_from hostport j) "["
      then addrErr "unexpected '[' in address"
      else if 0 <=? IndexByte (slice_from hostport k) "]"
      then addrErr "unexpected ']' in address"
      else (host, slice_from hostport (i + 1), None)
    end.

End net.

(** ** The router process (router/handle.go) *)
Module router.

Import cmd.

(** Values handed to [WriteJSON] as [interface{}]: structs, maps with
    string keys, strings, numbers and raw JSON text. *)
Inductive Json : Type :=
| JStr (s : string)
| JInt (z : Z)
| JRaw (raw : list byte)
| JObj (fields : list (string * Json)).

Record Args : Type := mkArgs {
  ServerName : string;
  ServerAddr : string;
  ServerData : list byte;          (* json.RawMessage *)
  ServerType : string;
  Weight : Z
}.

(** Modelled from the spec: [cmd.ForwardArgs] is declared outside the files
    at hand; the catalogue gives [C2S_Route{ServerList, Name, Data}]. *)
Record ForwardArgs : Type := mkForwardArgs {
  ServerList : list string;
  Name : string;
  Data : Json
}.

(** Modelled from the spec: [cmd.Package] is the envelope [{Id, Body}]. *)
Record Package : Type := mkPackage {
  Id : string;
  Body : Json
}.

(** Locations of [Server] objects. *)
Abbreviation loc := nat.

(** Modelled from the spec: the [Server] struct is declared outside the
    files at hand; its fields are the ones the handlers read and write
    ([{name, address, opaqueData, type, connection, weight}]). *)
Record Server : Type := mkServer {
  out : Conn;
  name : string;
  addr : string;
  data : list byte;
  typ : string;
  weight : Z
}.

Definition set_weight (w : Z) (s : Server) : Server :=
  {| out := out s; name := name s; addr := addr s; data := data s;
     typ := typ s; weight := w |}.

(** Modelled from the spec: the registry [gRouter] is declared outside the
    files at hand: [{servers: map[name -> Server], gateways: ordered list of
    Server}], gateways also appearing in [servers].  Both hold pointers
    ([AddServer] receives [&Server{...}] and [C2S_Concurrent] writes through
    the ranged pointer), so the [Server] objects live in a store and the two
    tables hold their locations. *)
Record Router : Type := mkRouter {
  heap : gmap nat Server;
  servers : gmap string nat;
  gateways : list nat
}.

Definition set_heap (r : Router) (hp : gmap nat Server) : Router :=
  {| heap := hp; servers := servers r; gateways := gateways r |}.

Definition empty_router : Router :=
  {| heap := ∅; servers := ∅; gateways := [] |}.

(** The object that a re-registration with [new] leaves in place of [old]:
    address, data and connection are taken over, the rest is kept. *)
Definition reregistered (new old : Server) : Server :=
  {| out := out new; name := name old; addr := addr new; data := data new;
     typ := typ old; weight := weight old |}.

(** Modelled from the spec: [AddServer] is defined outside the files at
    hand.  It upserts by name: a first registration enters the new object,
    a re-registration updates address, data and connection of the existing
    entry in place and keeps its type; an entry of type gateway is also
    (re)inserted into the gateway list, keyed by connection identity. *)
Definition AddServer (l : loc) (r : Router) : Router :=
  match heap r !! l with
  | None => r
  | Some new =>
    let '(hp, srv, l') :=
      match servers r !! name new with
      | Some l0 =>
        (alter (reregistered new) l0 (heap r), servers r, l0)
      | None => (heap r, <[name new := l]> (servers r), l)
      end in
    let is_gw :=
      match hp !! l' with
      | Some s => bool_decide (typ s = "gateway"%string)
      | None => false
      end in
    let gws :=
      if is_gw
      then
        List.filter (fun g => match hp !! g with
                              | Some s => negb (bool_decide (out s = out new))
                              | None => true
                              end) (gateways r) ++ [l']
      else gateways r in
    {| heap := hp; servers := srv; gateways := gws |}
  end.

(** Modelled from the spec: [GetServer(name)] is defined outside the files
    at hand; it is the lookup by name, nil for an unknown name. *)
Definition GetServer (r : Router) (n : string) : option Server :=
  l ← servers r !! n; heap r !! l.

(** The registry keeps every server under its own name: each entry of
    [servers] points to a live object whose [name] is the key. *)
Definition registry_ok (r : Router) : bool :=
  bool_decide
    (map_Forall (fun k l => name <$> heap r !! l = Some k) (servers r)).

(** Modelled from the spec: [GetServerAddr(name)] is defined outside the
    files at hand: [getServerAddr(name) -> address or empty], a lookup
    without side effects. *)
Definition GetServerAddr (r : Router) (n : string) : string :=
  match GetServer r n with
  | Some s => addr s
  | None => ""
  end.

(** The gateway objects, in list order. *)
Definition gateway_list (r : Router) : list Server :=
  omap (fun l => heap r !! l) (gateways r).

(** The lightest among [best] and the gateways [gws]; among equal weights
    the earliest. *)
Fixpoint min_weight (best : Server) (gws : list Server) : Server :=
  match gws with
  | [] => best
  | gw :: rest =>
    min_weight (if weight gw <? weight best then gw else best) rest
  end.

(** Modelled from the spec: [GetBestGateway()] is defined outside the files
    at hand: pick the gateway with the minimum current weight among all
    registered gateways, empty if no gateway is registered.  The spec leaves
    the choice among equal weights open; the first in list order is taken
    here. *)
Definition GetBestGateway (r : Router) : string :=
  match gateway_list r with
  | [] => ""
  | gw :: rest => addr (min_weight gw rest)
  end.

(** Calls made on connections ([ctx.Out], [server.out]). *)
Inductive Event : Type :=
| WriteJSON (c : Conn) (name : string) (body : Json).

Section Handlers.

(** [range] over a Go map visits the entries in an order of the runtime's
    choosing, which may differ from one loop to the next: [range_map k m]
    is the order taken by the [k]-th loop of a handler. *)
Variable range_map : forall V : Type, nat -> gmap string V -> list (string * V).
(** [c.RemoteAddr()] of a connection *)
Variable RemoteAddr : Conn -> string.

(** [for _, server := range gRouter.servers] *)
Definition range_servers (k : nat) (r : Router) : list Server :=
  omap (fun kv => heap r !! kv.2) (range_map nat k (servers r)).

(** [func C2S_Register(ctx *cmd.Context, data interface{})] *)
Definition C2S_Register (ctx : Context) (args : Args) (r : Router)
  : Router * list Event :=
  let '(host, port, _) := net.SplitHostPort (ServerAddr args) in
  let host :=
    if decide (host = ""%string)
    then (net.SplitHostPort (RemoteAddr (Out ctx))).1.1
    else host in
  let addr0 :=
    if decide (port ≠ ""%string) then host +:+ ":" +:+ port
    else ""%string in
  let ev_ok := [WriteJSON (Out ctx) "C2S_RegisterOk" (JObj [])] in
  let newServer :=
    {| out := Out ctx; name := ServerName args; addr := addr0;
       data := ServerData args; typ := ServerType args; weight := 0 |} in
  let l := fresh (dom (heap r)) in
  let r := AddServer l (set_heap r (<[l := newServer]> (heap r))) in
  (* center server *)
  let ev_catalogue :=
    if decide (typ newServer = "center"%string)
    then
      map (fun server =>
             WriteJSON (Out ctx) "S2C_AddGame"
               (JObj [("Name"%string, JStr (name server));
                      ("Data"%string, JRaw (data server))]))
          (range_servers 0 r)
    else [] in
  let ev_centers :=
    map (fun server =>
           WriteJSON (out server) "S2C_AddGame"
             (JObj [("Name"%string, JStr (name newServer));
                    ("Data"%string, JRaw (data newServer))]))
        (List.filter (fun server =>
                        bool_decide (typ server = "center"%string)
                        && negb (bool_decide (name server = name newServer)))
                     (range_servers 1 r)) in
  (* register the services with the gateways *)
  let ev_gateway :=
    if decide (typ newServer = "gateway"%string)
    then
      map (fun server =>
             WriteJSON (Out ctx) "FUNC_RegisterServiceInGateway"
               (JObj [("Name"%string, JStr (name server))]))
          (range_servers 2 r)
    else if decide (addr newServer ≠ ""%string)
    then
      map (fun gw =>
             WriteJSON (out gw) "FUNC_RegisterServiceInGateway"
               (JObj [("Name"%string, JStr (name newServer))]))
          (gateway_list r)
    else [] in
  (r, ev_ok ++ ev_catalogue ++ ev_centers ++ ev_gateway).

(** [func C2S_GetServerAddr(ctx *cmd.Context, data interface{})] *)
Definition C2S_GetServerAddr (ctx : Context) (args : Args) (r : Router)
  : Router * list Event :=
  let name0 := ServerName args in
  let addr0 := GetServerAddr r name0 in
  let response :=
    JObj [("ServerName"%string, JStr name0);
          ("ServerAddr"%string, JStr addr0)] in
  (r, [WriteJSON (Out ctx) "S2C_GetServerAddr" response]).

(** [func C2S_Broadcast(ctx *cmd.Context, data interface{})] *)
Definition C2S_Broadcast (ctx : Context) (pkg : Package) (r : Router)
  : Router * list Event :=
  (r, map (fun gw =>
             WriteJSON (out gw) "FUNC_Broadcast"
               (JObj [("Id"%string, JStr (Id pkg));
                      ("Body"%string, Body pkg)]))
          (gateway_list r)).

(** The loop of [C2S_Concurrent]: [gw.weight = args.Weight] through each
    ranged pointer whose connection is the reporting one. *)
Definition update_weights (c : Conn) (w : Z) (gws : list loc)
  (hp : gmap nat Server) : gmap nat Server :=
  foldl (fun hp gw =>
           match hp !! gw with
           | Some s =>
             if decide (out s = c) then <[gw := set_weight w s]> hp else hp
           | None => hp
           end) hp gws.

(** [func C2S_Concurrent(ctx *cmd.Context, data interface{})] *)
Definition C2S_Concurrent (ctx : Context) (args : Args) (r : Router)
  : Router * list Event :=
  let r :=
    set_heap r (update_weights (Out ctx) (Weight args) (gateways r)
                               (heap r)) in
  let addr0 := GetBestGateway r in
  match GetServer r "login" with
  | Some s =>
    let response := JObj [("Address"%string, JStr addr0)] in
    (r, [WriteJSON (out s) "S2C_GetBestGateway" response])
  | None => (r, [])
  end.

(** [func C2S_Route(ctx *cmd.Context, data interface{})] *)
Definition C2S_Route (ctx : Context) (args : ForwardArgs) (r : Router)
  : Router * list Event :=
  let servers0 := ServerList args in
  let servers0 :=
    if bool_decide (length servers0 = 1%nat)
       && bool_decide (servers0 !! 0%nat = Some "*"%string)
    then
      let prefixMap : gmap string bool :=
        foldl (fun m server => <[name server := true]> m) ∅
              (range_servers 0 r) in
      fst <$> range_map bool 1 prefixMap
    else servers0 in
  (r, omap (fun n =>
              match GetServer r n with
              | Some s => Some (WriteJSON (out s) (Name args) (Data args))
              | None => None
              end) servers0).

(** [func FUNC_Close(ctx *cmd.Context, data interface{})]: an empty body. *)
Definition FUNC_Close (ctx : Context) (args : Args) (r : Router)
  : Router * list Event := (r, []).

(** The messages bound to handlers in [init()], with decoded arguments. *)
Inductive Request : Type :=
| ReqRegister (args : Args)
| ReqGetServerAddr (args : Args)
| ReqConcurrent (args : Args)
| ReqRoute (args : ForwardArgs)
| ReqBroadcast (pkg : Package)
| ReqClose (args : Args).

(** One handler run from the execution queue. *)
Definition serve (ctx : Context) (req : Request) (r : Router)
  : Router * list Event :=
  match req with
  | ReqRegister args => C2S_Register ctx args r
  | ReqGetServerAddr args => C2S_GetServerAddr ctx args r
  | ReqConcurrent args => C2S_Concurrent ctx args r
  | ReqRoute args => C2S_Route ctx args r
  | ReqBroadcast pkg => C2S_Broadcast ctx pkg r
  | ReqClose args => FUNC_Close ctx args r
  end.

(** The handlers run one after the other, in queue order. *)
Fixpoint serve_all (reqs : list (Context * Request)) (r : Router)
  : Router * list Event :=
  match reqs with
  | [] => (r, [])
  | (ctx, req) :: rest =>
    let '(r1, ev1) := serve ctx req r in
    let '(r2, ev2) := serve_all rest r1 in
    (r2, ev1 ++ ev2)
  end.

End Handlers.

(** What a run of events announces to gateways: for each
    [FUNC_RegisterServiceInGateway{Name}] sent, the receiving connection
    and the name. *)
Definition announced (evs : list Event) : list (Conn * string) :=
  omap (fun ev =>
          match ev with
          | WriteJSON c msg (JObj [(key, JStr n)]) =>
            if bool_decide (msg = "FUNC_RegisterServiceInGateway"%string)
               && bool_decide (key = "Name"%string)
            then Some (c, n) else None
          | _ => None
          end) evs.

(** Sample data for concrete runs: map loops taken in the order of
    [map_to_list], and a registry with the game server "game1" and the
    gateway "gw1", the latter also on the gateway list. *)
Definition range_in_map_order (V : Type) (k : nat) (m : gmap string V)
  : list (string * V) := map_to_list m.

Definition example_registry : Router :=
  {| heap :=
       <[0%nat := mkServer 1%nat "game1" "10.0.0.7:9000" [] "generic" 0]>
         (<[1%nat := mkServer 2%nat "gw1" "10.0.0.8:9100" [] "gateway" 5]> ∅);
     servers := <["game1"%string := 0%nat]> (<["gw1"%string := 1%nat]> ∅);
     gateways := [1%nat] |}.

End router.

(** ** Package util (util/copy.go) *)
Module util.

(** [reflect.Kind] *)
Inductive Kind : Type :=
| Invalid | Bool
| Int | Int8 | Int16 | Int32 | Int64
| Uint | Uint8 | Uint16 | Uint32 | Uint64 | Uintptr
| Float32 | Float64 | Complex64 | Complex128
| Array | Chan | Func | Interface | Map | Pointer | Slice | String | Struct
| UnsafePointer.

Global Instance Kind_eq_dec : EqDecision Kind.
Proof. solve_decision. Defined.

(** [func testKind(k reflect.Kind) reflect.Kind] *)
Definition testKind (k : Kind) : Kind :=
  match k with
  | Float32 | Float64 => Float64
  | Int8 | Int16 | Int32 | Int64 | Int => Int64
  | Uint8 | Uint16 | Uint32 | Uint64 | Uint => Uint64
  | _ => k
  end.

End util.

(** ** Byte and header arithmetic *)

Lemma Z_of_byte_range (b : byte) : 0 <= Z_of_byte b < 256.
Proof.
  unfold Z_of_byte. pose proof (Byte.to_N_bounded b) as H.
  split; [apply N2Z.is_nonneg|].
  change 256 with (Z.of_N 256). apply N2Z.inj_lt. lia.
Qed.

Lemma Z_of_byte_of_Z (z : Z) : Z_of_byte (byte_of_Z z) = z mod 256.
Proof.
  unfold Z_of_byte, byte_of_Z.
  assert (Hr : 0 <= z mod 256 < 256) by (apply Z.mod_pos_bound; lia).
  destruct (Byte.of_N (Z.to_N (z mod 256))) as [b|] eqn:E.
  - apply Byte.to_of_N in E. rewrite E. rewrite Z2N.id; lia.
  - apply Byte.of_N_None_iff in E. lia.
Qed.

Lemma Uint16_PutUint16 (v : Z) :
  0 <= v < 65536 ->
  let '(hi, lo) := binary.PutUint16 v in binary.Uint16 hi lo = v.
Proof.
  intros Hv. unfold binary.PutUint16, binary.Uint16.
  rewrite !Z_of_byte_of_Z.
  change 256 with (2 ^ 8).
  apply Z.bits_inj'. intros i Hi.
  rewrite Z.lor_spec.
  destruct (Z.ltb_spec i 8) as [Hlt|Hge].
  - rewrite Z.shiftl_spec_low by lia.
    rewrite Z.mod_pow2_bits_low by lia. now rewrite orb_false_r.
  - rewrite Z.mod_pow2_bits_high by lia.
    rewrite Z.shiftl_spec by lia. simpl.
    destruct (Z.ltb_spec (i - 8) 8) as [Hlt'|Hge'].
    + rewrite Z.mod_pow2_bits_low by lia.
      rewrite Z.shiftr_spec by lia. f_equal. lia.
    + rewrite Z.mod_pow2_bits_high by lia.
      symmetry. apply (Z.bits_above_log2 v i); [lia|].
      destruct (Z.eq_dec v 0) as [->|Hnz]; [simpl; lia|].
      apply Z.log2_lt_pow2; [lia|].
      apply Z.lt_le_trans with (2 ^ 16); [change (2 ^ 16) with 65536; lia|].
      apply Z.pow_le_mono_r; lia.
Qed.

Lemma copy_at_window (pre mid post src : list byte) :
  length mid = length src ->
  copy_at (pre ++ mid ++ post) (length pre) src = pre ++ src ++ post.
Proof.
  intros Hlen. unfold copy_at.
  rewrite !length_app.
  replace (Nat.min (length pre + (length mid + length post) - length pre)
                   (length src)) with (length src) by lia.
  rewrite take_app_length, firstn_all.
  rewrite drop_app_add', <- Hlen by reflexivity.
  now rewrite drop_app_length.
Qed.

(** ** Frame codec *)

(** The header that [NewMessageBytes] puts in front of an accepted payload:
    the type byte and the big-endian length. *)
Lemma NewMessageBytes_accepted (mt : Z) (data : list byte) :
  Z.of_nat (length data) <= cmd.maxMessageSize ->
  cmd.NewMessageBytes mt data =
  (byte_of_Z mt
     :: byte_of_Z (Z.shiftr (uint16 (Z.of_nat (length data))) 8)
     :: byte_of_Z (uint16 (Z.of_nat (length data))) :: data, None).
Proof.
  intros Hle. unfold cmd.NewMessageBytes.
  destruct (Z.gtb_spec (Z.of_nat (length data)) cmd.maxMessageSize) as [Hgt|_];
    [lia|].
  unfold binary.PutUint16, make_bytes.
  replace (length data + 3)%nat with (3 + length data)%nat by lia.
  cbn [repeat Nat.add].
  set (a := byte_of_Z mt).
  set (hi := byte_of_Z _). set (lo := byte_of_Z _).
  pose proof (copy_at_window [] [x00; x00; x00] (repeat x00 (length data))
                [a; x00; x00] eq_refl) as H0.
  cbn [app length] in H0. rewrite H0. clear H0.
  pose proof (copy_at_window [a] [x00; x00] (repeat x00 (length data))
                [hi; lo] eq_refl) as H1.
  cbn [app length] in H1. rewrite H1. clear H1.
  pose proof (copy_at_window [a; hi; lo] (repeat x00 (length data)) [] data)
    as H2.
  rewrite repeat_length in H2. specialize (H2 eq_refl).
  cbn [app length] in H2. rewrite !app_nil_r in H2. now rewrite H2.
Qed.

Lemma NewMessageBytes_rejected (mt : Z) (data : list byte) :
  cmd.maxMessageSize < Z.of_nat (length data) ->
  cmd.NewMessageBytes mt data = ([], Some errTooLargeMessage).
Proof.
  intros Hlt. unfold cmd.NewMessageBytes.
  destruct (Z.gtb_spec (Z.of_nat (length data)) cmd.maxMessageSize); [done|lia].
Qed.

Lemma ReadFull_app (data rest : list byte) :
  ReadFull (length data) (data ++ rest) = (data, None, rest).
Proof.
  unfold ReadFull. rewrite length_app.
  destruct (Nat.ltb_spec (length data + length rest) (length data)); [lia|].
  now rewrite take_app_length, drop_app_length.
Qed.

(** What [ReadMessage] does with a stream that starts with a well-formed
    header of a data frame followed by the announced payload. *)
Lemma ReadMessage_data_frame (c : cmd.TCPConn) (mt n : Z) (b0 hi lo : byte)
      (data rest : list byte) :
  cmd.incoming (cmd.rwc c) = b0 :: hi :: lo :: data ++ rest ->
  Z_of_byte b0 = mt ->
  mt = cmd.RawMessage \/ mt = cmd.AuthMessage ->
  binary.Uint16 hi lo = n ->
  0 < n < cmd.maxMessageSize ->
  Z.to_nat n = length data ->
  cmd.ReadMessage c =
  ((mt, data, None),
   cmd.set_rwc c (cmd.set_incoming (cmd.rwc c) rest)).
Proof.
  intros Hin Hb0 Hmt Hn Hrange Hlen.
  unfold cmd.ReadMessage, cmd.read_rwc. rewrite Hin.
  change (b0 :: hi :: lo :: data ++ rest)
    with ([b0; hi; lo] ++ (data ++ rest)).
  change 3%nat with (length [b0; hi; lo]). rewrite ReadFull_app.
  cbn [nth]. rewrite Hb0, Hn.
  assert (Hctl : (mt =? cmd.PingMessage) || (mt =? cmd.PongMessage)
                 || (mt =? cmd.CloseMessage) = false)
    by (destruct Hmt as [E|E]; rewrite E; reflexivity).
  assert (Hdat : (mt =? cmd.AuthMessage) || (mt =? cmd.RawMessage) = true)
    by (destruct Hmt as [E|E]; rewrite E; reflexivity).
  rewrite Hctl, Hdat.
  destruct (Z.ltb_spec 0 n); [|lia].
  destruct (Z.ltb_spec n cmd.maxMessageSize); [|lia].
  cbn [andb cmd.rwc cmd.set_rwc cmd.incoming cmd.set_incoming].
  rewrite Hlen, ReadFull_app. reflexivity.
Qed.

(** C1. Frame round trip: for a frame of type Raw (0x01) or Auth (0xF3) and a
    payload of 1 to 32767 bytes, [NewMessageBytes] returns the frame without
    error, and [ReadMessage] on a connection whose incoming stream starts with
    that frame returns the same type and payload with no error, leaving the
    rest of the stream unread. *)
Theorem frame_round_trip (c : cmd.TCPConn) (mt : Z) (data rest : list byte) :
  mt = cmd.RawMessage \/ mt = cmd.AuthMessage ->
  1 <= Z.of_nat (length data) <= 32767 ->
  exists buf,
    cmd.NewMessageBytes mt data = (buf, None)
    /\ cmd.ReadMessage
         (cmd.set_rwc c (cmd.set_incoming (cmd.rwc c) (buf ++ rest)))
       = ((mt, data, None),
          cmd.set_rwc c (cmd.set_incoming (cmd.rwc c) rest)).
Proof.
  intros Hmt Hlen.
  assert (Hmax : cmd.maxMessageSize = 32768) by reflexivity.
  eexists. split.
  - apply NewMessageBytes_accepted. lia.
  - set (n := Z.of_nat (length data)).
    assert (Hu : uint16 n = n) by (unfold uint16; apply Z.mod_small; lia).
    pose proof (Uint16_PutUint16 n ltac:(lia)) as Hput.
    unfold binary.PutUint16 in Hput.
    rewrite Hu.
    erewrite (ReadMessage_data_frame _ mt n); [reflexivity | reflexivity | | exact Hmt | exact Hput | lia | unfold n; lia].
    rewrite Z_of_byte_of_Z. destruct Hmt as [E|E]; rewrite E; reflexivity.
Qed.

(** An instance: a two byte Raw payload followed by one stray byte. *)
Lemma frame_round_trip_witness :
  exists buf,
    cmd.NewMessageBytes cmd.RawMessage [x61; x62] = (buf, None)
    /\ cmd.ReadMessage
         (cmd.set_rwc
            (cmd.mkTCPConn (cmd.mkNetConn "10.0.0.7:4000" [] [])
                           "s1" (cmd.mkChan 4 [] false) false)
            (cmd.set_incoming (cmd.mkNetConn "10.0.0.7:4000" [] [])
                              (buf ++ [xff])))
       = ((cmd.RawMessage, [x61; x62], None),
          cmd.set_rwc
            (cmd.mkTCPConn (cmd.mkNetConn "10.0.0.7:4000" [] [])
                           "s1" (cmd.mkChan 4 [] false) false)
            (cmd.set_incoming (cmd.mkNetConn "10.0.0.7:4000" [] []) [xff])).
Proof.
  apply (frame_round_trip
           (cmd.mkTCPConn (cmd.mkNetConn "10.0.0.7:4000" [] [])
                          "s1" (cmd.mkChan 4 [] false) false)
           cmd.RawMessage [x61; x62] [xff]).
  - left; reflexivity.
  - simpl; lia.
Defined.

(** A data frame whose header announces 32768 bytes or more is refused by
    [ReadMessage] after the three header bytes: nothing of the payload is
    read. *)
Lemma ReadMessage_oversized (c : cmd.TCPConn) (b0 hi lo : byte)
      (rest : list byte) :
  cmd.incoming (cmd.rwc c) = b0 :: hi :: lo :: rest ->
  Z_of_byte b0 = cmd.RawMessage \/ Z_of_byte b0 = cmd.AuthMessage ->
  cmd.maxMessageSize <= binary.Uint16 hi lo ->
  cmd.ReadMessage c =
  ((Z_of_byte b0, [], Some (errors_New "invalid data")),
   cmd.set_rwc c (cmd.set_incoming (cmd.rwc c) rest)).
Proof.
  intros Hin Hmt Hn.
  unfold cmd.ReadMessage, cmd.read_rwc. rewrite Hin.
  change (b0 :: hi :: lo :: rest) with ([b0; hi; lo] ++ rest).
  change 3%nat with (length [b0; hi; lo]). rewrite ReadFull_app.
  cbn [nth].
  assert (Hctl : (Z_of_byte b0 =? cmd.PingMessage)
                 || (Z_of_byte b0 =? cmd.PongMessage)
                 || (Z_of_byte b0 =? cmd.CloseMessage) = false)
    by (destruct Hmt as [E|E]; rewrite E; reflexivity).
  assert (Hdat : (Z_of_byte b0 =? cmd.AuthMessage)
                 || (Z_of_byte b0 =? cmd.RawMessage) = true)
    by (destruct Hmt as [E|E]; rewrite E; reflexivity).
  rewrite Hctl, Hdat.
  destruct (Z.ltb_spec (binary.Uint16 hi lo) cmd.maxMessageSize); [lia|].
  now rewrite andb_false_r.
Qed.

(** The write path with a payload of more than 32768 bytes: the error is
    returned and the socket is not written to, whatever it would have done
    with a write. *)
Lemma writeMsg_rejected (w : option (nat * error)) (mt : Z)
      (msg : list byte) (c : cmd.TCPConn) :
  cmd.maxMessageSize < Z.of_nat (length msg) ->
  cmd.writeMsg w mt msg c = ((0, Some errTooLargeMessage), c).
Proof.
  intros Hlt. unfold cmd.writeMsg.
  now rewrite NewMessageBytes_rejected.
Qed.

(** C2. The encode path at a payload of exactly 32768 bytes: the guard
    [len(data) > maxMessageSize] lets it through, [NewMessageBytes] returns a
    frame whose header announces 0x8000 bytes and no error, [writeMsg] hands
    that frame to the socket (which takes all 32771 bytes, or some of them
    and fails), and [ReadMessage] refuses the very same frame as invalid
    data. *)
Theorem NewMessageBytes_32768_not_rejected :
  let data := repeat x00 (Z.to_nat 32768) in
  let frame := x01 :: x80 :: x00 :: data in
  Z.of_nat (length data) = 32768
  /\ cmd.NewMessageBytes cmd.RawMessage data = (frame, None)
  /\ (forall c : cmd.TCPConn,
        cmd.writeMsg None cmd.RawMessage data c =
        ((32771, None),
         cmd.set_rwc c (cmd.set_outgoing (cmd.rwc c)
                          (cmd.outgoing (cmd.rwc c) ++ frame))))
  /\ (forall (c : cmd.TCPConn) (k : nat) (e : error),
        cmd.writeMsg (Some (k, e)) cmd.RawMessage data c =
        ((Z.of_nat (Nat.min k (length frame)), Some e),
         cmd.set_rwc c (cmd.set_outgoing (cmd.rwc c)
                          (cmd.outgoing (cmd.rwc c) ++ take k frame))))
  /\ (forall c : cmd.TCPConn,
        cmd.incoming (cmd.rwc c) = frame ->
        cmd.ReadMessage c =
        ((cmd.RawMessage, [], Some (errors_New "invalid data")),
         cmd.set_rwc c (cmd.set_incoming (cmd.rwc c) data))).
Proof.
  intros data frame.
  assert (Hlen : Z.of_nat (length data) = 32768).
  { unfold data. rewrite repeat_length, Z2Nat.id; lia. }
  assert (Henc : cmd.NewMessageBytes cmd.RawMessage data = (frame, None)).
  { rewrite NewMessageBytes_accepted by (rewrite Hlen; reflexivity).
    rewrite Hlen. reflexivity. }
  split; [exact Hlen|]. split; [exact Henc|]. split; [|split].
  - intros c. unfold cmd.writeMsg. rewrite Henc. unfold cmd.write_rwc.
    replace (Z.of_nat (length frame)) with 32771; [reflexivity|].
    unfold frame. cbn [length]. rewrite !Nat2Z.inj_succ, Hlen. reflexivity.
  - intros c k e. unfold cmd.writeMsg. rewrite Henc. reflexivity.
  - intros c Hin.
    apply (ReadMessage_oversized c x01 x80 x00 data Hin).
    + left; reflexivity.
    + vm_compute. discriminate.
Qed.

(** ** Send queue and close *)

Lemma Write_closed (data : list byte) (c : cmd.TCPConn) :
  cmd.isClose c = true ->
  cmd.Write data c = cmd.Done (Some (errors_New "connection is closed"), c).
Proof. intros H. unfold cmd.Write. now rewrite H. Qed.

Lemma Write_room (data : list byte) (c : cmd.TCPConn) :
  cmd.isClose c = false ->
  cmd.chan_closed (cmd.send c) = false ->
  (length (cmd.chan_buf (cmd.send c)) < cmd.chan_cap (cmd.send c))%nat ->
  cmd.Write data c =
  cmd.Done (None,
            cmd.set_send c
              (cmd.mkChan (cmd.chan_cap (cmd.send c))
                          (cmd.chan_buf (cmd.send c) ++ [data]) false)).
Proof.
  intros Hopen Hch Hlt. unfold cmd.Write, cmd.chan_send.
  rewrite Hopen, Hch.
  destruct (Nat.ltb_spec (length (cmd.chan_buf (cmd.send c)))
                         (cmd.chan_cap (cmd.send c))); [done|lia].
Qed.

Lemma Write_full (data : list byte) (c : cmd.TCPConn) :
  cmd.isClose c = false ->
  cmd.chan_closed (cmd.send c) = false ->
  (cmd.chan_cap (cmd.send c) <= length (cmd.chan_buf (cmd.send c)))%nat ->
  cmd.Write data c = cmd.Done (Some (errors_New "write too busy"), c).
Proof.
  intros Hopen Hch Hge. unfold cmd.Write, cmd.chan_send.
  rewrite Hopen, Hch.
  destruct (Nat.ltb_spec (length (cmd.chan_buf (cmd.send c)))
                         (cmd.chan_cap (cmd.send c))); [lia|done].
Qed.

(** [n] sends into a queue with room for all of them succeed and leave the
    [n] messages queued in order. *)
Lemma Write_n_room (n : nat) (data : list byte) (c : cmd.TCPConn) :
  cmd.isClose c = false ->
  cmd.chan_closed (cmd.send c) = false ->
  (length (cmd.chan_buf (cmd.send c)) + n <= cmd.chan_cap (cmd.send c))%nat ->
  cmd.Write_n n data c =
  cmd.Done (None,
            cmd.set_send c
              (cmd.mkChan (cmd.chan_cap (cmd.send c))
                          (cmd.chan_buf (cmd.send c) ++ repeat data n) false)).
Proof.
  revert c. induction n as [|n IH]; intros c Hopen Hch Hle.
  - cbn [cmd.Write_n repeat]. rewrite app_nil_r.
    destruct c as [r s [cap buf cl] ic]. cbn in *. now subst.
  - cbn [cmd.Write_n]. rewrite Write_room by (try done; lia).
    rewrite IH; cbn; try done.
    + rewrite <- app_assoc. reflexivity.
    + rewrite length_app. cbn. lia.
Qed.

(** Filling the empty queue of an open connection to its capacity of
    [sendQueueSize] entries: all these sends return nil, and the next one
    returns the busy error at once. *)
Lemma Write_fill_then_busy (data : list byte) (c : cmd.TCPConn) :
  cmd.isClose c = false ->
  cmd.chan_closed (cmd.send c) = false ->
  cmd.chan_buf (cmd.send c) = [] ->
  Z.of_nat (cmd.chan_cap (cmd.send c)) = cmd.sendQueueSize ->
  exists c',
    cmd.Write_n (Z.to_nat cmd.sendQueueSize) data c = cmd.Done (None, c')
    /\ Z.of_nat (length (cmd.chan_buf (cmd.send c'))) = cmd.sendQueueSize
    /\ forall d, cmd.Write d c'
                 = cmd.Done (Some (errors_New "write too busy"), c').
Proof.
  intros Hopen Hch Hbuf Hcap. eexists. split; [|split].
  - apply Write_n_room; [exact Hopen | exact Hch |].
    rewrite Hbuf. cbn [length]. lia.
  - cbn. rewrite Hbuf, app_nil_l, repeat_length. apply Z2Nat.id.
    rewrite <- Hcap. lia.
  - intros d. apply Write_full; [exact Hopen | reflexivity |].
    cbn. rewrite Hbuf, app_nil_l, repeat_length. lia.
Qed.

(** C7. [Write] does not wait for room in the send queue.  On an open
    connection whose queue has the capacity [sendQueueSize] (16384 entries):
    when the queue is full the call returns the error at once and changes
    nothing; when there is room nil is returned and the connection is as
    before except that its queue holds the data behind what was queued; and
    in either case every other connection of the table is left as it
    was. *)
Theorem Write_never_blocks (cs : gmap nat cmd.TCPConn) (id : cmd.Conn)
        (c : cmd.TCPConn) (data : list byte) :
  cs !! id = Some c ->
  cmd.isClose c = false ->
  cmd.chan_closed (cmd.send c) = false ->
  Z.of_nat (cmd.chan_cap (cmd.send c)) = cmd.sendQueueSize ->
  cmd.sendQueueSize = 16384
  /\ (Z.of_nat (length (cmd.chan_buf (cmd.send c))) = cmd.sendQueueSize ->
      cmd.Write_on id data cs =
      cmd.Done (Some (errors_New "write too busy"), cs))
  /\ (Z.of_nat (length (cmd.chan_buf (cmd.send c))) < cmd.sendQueueSize ->
      cmd.Write_on id data cs =
      cmd.Done (None,
                <[id := cmd.mkTCPConn (cmd.rwc c) (cmd.ssid c)
                          (cmd.mkChan (cmd.chan_cap (cmd.send c))
                             (cmd.chan_buf (cmd.send c) ++ [data]) false)
                          false]> cs))
  /\ (forall err cs',
        cmd.Write_on id data cs = cmd.Done (err, cs') ->
        forall id', id' <> id -> cs' !! id' = cs !! id').
Proof.
  intros Hid Hopen Hch Hcap. split; [reflexivity|]. split; [|split].
  - intros Hfull. unfold cmd.Write_on. rewrite Hid.
    rewrite Write_full by (try done; lia).
    now rewrite insert_id.
  - intros Hroom. unfold cmd.Write_on. rewrite Hid.
    rewrite Write_room by (try done; lia).
    unfold cmd.set_send. now rewrite Hopen.
  - intros err cs' HW id' Hne. unfold cmd.Write_on in HW. rewrite Hid in HW.
    destruct (cmd.Write data c) as [[err0 c']|m]; [|discriminate].
    injection HW as _ <-. now rewrite lookup_insert_ne.
Qed.

(** An instance with two connections, the first with a full queue of capacity
    16384 and the second with one message queued: the send on the first is
    refused and changes nothing, the send on the second is queued behind
    the message that was there. *)
Lemma Write_never_blocks_witness :
  let full :=
    cmd.mkTCPConn (cmd.mkNetConn "10.0.0.7:4000" [] []) "a"
      (cmd.mkChan (Z.to_nat 16384) (repeat [x7b; x7d] (Z.to_nat 16384)) false)
      false in
  let idle :=
    cmd.mkTCPConn (cmd.mkNetConn "10.0.0.8:4000" [] []) "b"
      (cmd.mkChan (Z.to_nat 16384) [[x62]] false) false in
  let cs : gmap nat cmd.TCPConn := <[1%nat := full]> {[2%nat := idle]} in
  cmd.Write_on 1%nat [x61] cs
  = cmd.Done (Some (errors_New "write too busy"), cs)
  /\ cs !! 2%nat = Some idle
  /\ cmd.Write_on 2%nat [x61] cs
     = cmd.Done
         (None,
          <[2%nat :=
              cmd.mkTCPConn (cmd.mkNetConn "10.0.0.8:4000" [] []) "b"
                (cmd.mkChan (Z.to_nat 16384) [[x62]; [x61]] false) false]>
            cs).
Proof.
  intros full idle cs.
  assert (Hlen : length (cmd.chan_buf (cmd.send full)) = Z.to_nat 16384)
    by apply repeat_length.
  assert (H2 : cs !! 2%nat = Some idle) by reflexivity.
  destruct (Write_never_blocks cs 1%nat full [x61]
              (lookup_insert_eq _ 1%nat full) eq_refl eq_refl eq_refl)
    as (_ & Hfull & _ & _).
  destruct (Write_never_blocks cs 2%nat idle [x61] H2 eq_refl eq_refl eq_refl)
    as (_ & _ & Hroom & _).
  split; [|split].
  - apply Hfull. rewrite Hlen. reflexivity.
  - exact H2.
  - apply Hroom. reflexivity.
Defined.

Lemma Close_closed (c : cmd.TCPConn) :
  cmd.isClose c = true -> cmd.Close c = cmd.Done c.
Proof. intros H. unfold cmd.Close. now rewrite H. Qed.

(** C8. [Close] is idempotent.  On an open connection the first call sets
    [isClose] and closes the send channel, once; every further call returns
    without touching the connection (a second [close(c.send)] would panic),
    so any number of calls in a row ends in the same state; and after it
    every [Write] fails with the closed-connection error. *)
Theorem Close_idempotent (c : cmd.TCPConn) :
  cmd.isClose c = false ->
  cmd.chan_closed (cmd.send c) = false ->
  cmd.Close c = cmd.Done (cmd.closed_conn c)
  /\ cmd.Close (cmd.closed_conn c) = cmd.Done (cmd.closed_conn c)
  /\ (forall n : nat, cmd.Close_n (S n) c = cmd.Done (cmd.closed_conn c))
  /\ (forall data : list byte,
        cmd.Write data (cmd.closed_conn c)
        = cmd.Done (Some (errors_New "connection is closed"),
                    cmd.closed_conn c)).
Proof.
  intros Hopen Hch.
  assert (H1 : cmd.Close c = cmd.Done (cmd.closed_conn c)).
  { unfold cmd.Close, cmd.chan_close. rewrite Hopen. cbn. now rewrite Hch. }
  assert (H2 : forall n, cmd.Close_n n (cmd.closed_conn c)
                         = cmd.Done (cmd.closed_conn c)).
  { induction n as [|n IH]; [reflexivity|].
    cbn [cmd.Close_n]. now rewrite Close_closed. }
  split; [exact H1|]. split; [now apply Close_closed|]. split.
  - intros n. cbn [cmd.Close_n]. rewrite H1. apply H2.
  - intros data. now apply Write_closed.
Qed.

Lemma Close_idempotent_witness :
  let c :=
    cmd.mkTCPConn (cmd.mkNetConn "10.0.0.7:4000" [] []) "a"
      (cmd.mkChan 2 [[x61]] false) false in
  cmd.Close c = cmd.Done (cmd.closed_conn c)
  /\ cmd.Close_n 3 c = cmd.Done (cmd.closed_conn c)
  /\ cmd.Write [x62] (cmd.closed_conn c)
     = cmd.Done (Some (errors_New "connection is closed"), cmd.closed_conn c).
Proof.
  intros c.
  destruct (Close_idempotent c eq_refl eq_refl) as (H1 & _ & Hn & Hw).
  split; [exact H1|]. split; [exact (Hn 2%nat)|exact (Hw [x62])].
Defined.

(** ** Command registry and dispatcher *)

Lemma string_length_pos (s : string) :
  s <> ""%string -> (0 <? String.length s)%nat = true.
Proof. destruct s; [congruence | reflexivity]. Qed.

(** The identifier check passes exactly on the non-empty strings of ASCII
    letters and digits. *)
Lemma MatchString_alnum_false (name : string) :
  name = ""%string
  \/ (exists a, In a (list_ascii_of_string name) /\ cmd.isAlnum a = false) ->
  cmd.MatchString_alnum name = (false, None).
Proof.
  intros [->|(a & Hin & Ha)]; [reflexivity|].
  unfold cmd.MatchString_alnum. destruct name as [|a0 name']; [reflexivity|].
  f_equal. apply not_true_is_false. intros Hall.
  rewrite forallb_forall in Hall. specialize (Hall a Hin). congruence.
Qed.

Lemma MatchString_alnum_true (name : string) :
  name <> ""%string ->
  (forall a, In a (list_ascii_of_string name) -> cmd.isAlnum a = true) ->
  cmd.MatchString_alnum name = (true, None).
Proof.
  intros Hne Hall. unfold cmd.MatchString_alnum.
  destruct name as [|a0 name']; [congruence|].
  f_equal. now apply forallb_forall.
Qed.

Section DispatchFacts.

Variables Handler Value RType Session : Type.
Variable TypeOf : Value -> RType.
Variable NewElem : RType -> cmd.outcome Value.
Variable Unmarshal : list byte -> Value -> Value * option error.
Variable routeMessage : string -> string -> string * string.
Variable GetSession : string -> option Session.

Local Abbreviation Handle :=
  (cmd.Handle NewElem Unmarshal routeMessage GetSession).
Local Abbreviation Bind := (cmd.Bind TypeOf).

(** C3 (amended). When [Bind] is called twice with the same identifier the
    second call is not rejected: it logs the warning and overwrites the
    entry, so the entry in force afterwards is the one of the second call;
    the other identifiers and the service flags are untouched. *)
Theorem Bind_twice_last_wins (s : cmd.CmdSet Handler RType) (name : string)
        (h1 h2 : Handler) (i1 i2 : Value) :
  let s1 := (Bind name h1 i1 s).1 in
  let '(s2, warn) := Bind name h2 i2 s1 in
  warn = [(name +:+ " exist")%string]
  /\ cmd.e s2 !! name = Some (cmd.mkCmdEntry h2 (TypeOf i2))
  /\ (forall other, other <> name -> cmd.e s2 !! other = cmd.e s !! other)
  /\ cmd.services s2 = cmd.services s.
Proof.
  cbn. rewrite lookup_insert_eq. split; [reflexivity|].
  split; [apply lookup_insert_eq|]. split; [|reflexivity].
  intros other Hne. now rewrite !lookup_insert_ne.
Qed.

(** C4. A routed identifier whose local name does not match
    [^[A-Za-z0-9]+$]: on a gateway connection [Handle] returns the
    invalid-id error and has no effect; on a connection that is not a
    gateway the same identifier is accepted, [Handle] returns nil and the
    message (an empty payload replaced by the two bytes of an empty
    object) goes to the caller's session if there is one. *)
Theorem Handle_gateway_identifier_check (s : cmd.CmdSet Handler RType)
        (out : cmd.Conn) (sid messageID : string) (data : list byte)
        (serverName name : string) :
  routeMessage ""%string messageID = (serverName, name) ->
  serverName <> ""%string ->
  (name = ""%string
   \/ exists a, In a (list_ascii_of_string name) /\ cmd.isAlnum a = false) ->
  Handle s (cmd.mkContext out sid true) messageID data
  = (cmd.Done (Some (errors_New "invalid message id")), [])
  /\ Handle s (cmd.mkContext out sid false) messageID data
     = (cmd.Done None,
        match GetSession sid with
        | Some ss =>
          [cmd.SessionRoute ss serverName name
             (if (length data =? 0)%nat then [x7b; x7d] else data)]
        | None => []
        end).
Proof.
  intros Hroute Hsrv Hbad. split.
  - unfold cmd.Handle. rewrite Hroute. cbn [cmd.isGateway].
    now rewrite (MatchString_alnum_false name Hbad).
  - unfold cmd.Handle. rewrite Hroute. cbn [cmd.isGateway cmd.Ssid andb].
    rewrite (string_length_pos serverName Hsrv).
    now destruct (GetSession sid).
Qed.

(** C10. A routed identifier that passes the gateway-side checks (on a
    gateway connection: the local name matches the pattern and the service
    is active) for which [GetSession] finds no session: [Handle] returns
    nil and does nothing, it neither forwards nor enqueues. *)
Theorem Handle_routed_without_session (s : cmd.CmdSet Handler RType)
        (ctx : cmd.Context) (messageID : string) (data : list byte)
        (serverName name : string) :
  routeMessage ""%string messageID = (serverName, name) ->
  serverName <> ""%string ->
  (cmd.isGateway ctx = true ->
   (name <> ""%string
    /\ forall a, In a (list_ascii_of_string name) -> cmd.isAlnum a = true)
   /\ cmd.service_flag (cmd.services s) serverName = true) ->
  GetSession (cmd.Ssid ctx) = None ->
  Handle s ctx messageID data = (cmd.Done None, []).
Proof.
  intros Hroute Hsrv Hgw Hnone.
  unfold cmd.Handle. rewrite Hroute, Hnone.
  rewrite (string_length_pos serverName Hsrv).
  destruct (cmd.isGateway ctx) eqn:Eg.
  - destruct (Hgw eq_refl) as [[Hne Hall] Hact].
    rewrite (MatchString_alnum_true name Hne Hall), Hact. reflexivity.
  - reflexivity.
Qed.

End DispatchFacts.

(** Concrete runs of the registry and the dispatcher: handlers and argument
    shapes are named by strings, decoded arguments are the payload bytes, the
    message-id router is the dotted convention and "s1" is the one live
    session. *)

(** C3 (as stated) fails: after binding "C2S_Login" to [onLogin] and then to
    [onLoginV2], the entry in force is not the one of the first call. *)
Lemma Bind_twice_first_kept_counterexample :
  let s1 :=
    (cmd.Bind (fun i : string => i) "C2S_Login" "onLogin"%string
              "*LoginArgs"%string cmd.defaultCmdSet).1 in
  let s2 :=
    (cmd.Bind (fun i : string => i) "C2S_Login" "onLoginV2"%string
              "*LoginArgsV2"%string s1).1 in
  cmd.e s1 !! "C2S_Login"%string
  = Some (cmd.mkCmdEntry "onLogin"%string "*LoginArgs"%string)
  /\ cmd.e s2 !! "C2S_Login"%string
     <> Some (cmd.mkCmdEntry "onLogin"%string "*LoginArgs"%string).
Proof.
  cbn. split.
  - apply lookup_insert_eq.
  - rewrite lookup_insert_eq. discriminate.
Qed.

Lemma Handle_gateway_identifier_check_witness :
  cmd.Handle (Handler := string) (fun _ : string => cmd.Done [])
             (fun data _ => (data, None)) cmd.routeMessage_dotted
             (fun sid => if String.eqb sid "s1" then Some 7%nat else None)
             cmd.defaultCmdSet (cmd.mkContext 3%nat "s1" true)
             "game.Enter/Room" [x7b; x7d]
  = (cmd.Done (Some (errors_New "invalid message id")), [])
  /\ cmd.Handle (Handler := string) (fun _ : string => cmd.Done [])
                (fun data _ => (data, None)) cmd.routeMessage_dotted
                (fun sid => if String.eqb sid "s1" then Some 7%nat else None)
                cmd.defaultCmdSet (cmd.mkContext 3%nat "s1" false)
                "game.Enter/Room" [x7b; x7d]
     = (cmd.Done None,
        [cmd.SessionRoute 7%nat "game" "Enter/Room" [x7b; x7d]]).
Proof.
  apply (Handle_gateway_identifier_check string (list byte) string nat
           (fun _ => cmd.Done []) (fun data _ => (data, None))
           cmd.routeMessage_dotted
           (fun sid => if String.eqb sid "s1" then Some 7%nat else None)
           cmd.defaultCmdSet 3%nat "s1" "game.Enter/Room" [x7b; x7d]
           "game" "Enter/Room").
  - reflexivity.
  - discriminate.
  - right. exists "/"%char. split; [simpl; tauto | reflexivity].
Defined.

Lemma Handle_routed_without_session_witness :
  cmd.Handle (Handler := string) (fun _ : string => cmd.Done [])
             (fun data _ => (data, None)) cmd.routeMessage_dotted
             (fun sid => if String.eqb sid "s1" then Some 7%nat else None)
             (cmd.RegisterService "game" cmd.defaultCmdSet)
             (cmd.mkContext 3%nat "s2" true) "game.Enter" []
  = (cmd.Done None, []).
Proof.
  apply (Handle_routed_without_session string (list byte) string nat
           (fun _ => cmd.Done []) (fun data _ => (data, None))
           cmd.routeMessage_dotted
           (fun sid => if String.eqb sid "s1" then Some 7%nat else None)
           (cmd.RegisterService "game" cmd.defaultCmdSet)
           (cmd.mkContext 3%nat "s2" true) "game.Enter" [] "game" "Enter").
  - reflexivity.
  - discriminate.
  - intros _. split; [split|].
    + discriminate.
    + intros a Ha. simpl in Ha.
      repeat (destruct Ha as [<-|Ha]; [reflexivity|]). destruct Ha.
    + unfold cmd.service_flag, cmd.RegisterService. cbn.
      now rewrite lookup_insert_eq.
  - reflexivity.
Defined.

(** ** Router handlers *)

(** The store after the loop of [C2S_Concurrent]: the objects on the gateway
    list whose connection is the reporting one carry the reported weight, all
    others are as before. *)
Lemma update_weights_lookup (c : cmd.Conn) (w : Z) (gws : list router.loc)
      (hp : gmap nat router.Server) (l : router.loc) :
  router.update_weights c w gws hp !! l =
  (fun s => if bool_decide (l ∈ gws) && bool_decide (router.out s = c)
            then router.set_weight w s else s) <$> hp !! l.
Proof.
  unfold router.update_weights.
  revert hp. induction gws as [|g gws IH]; intros hp.
  - cbn. destruct (hp !! l); reflexivity.
  - cbn [foldl]. rewrite IH. clear IH.
    destruct (decide (l = g)) as [->|Hne].
    + rewrite (bool_decide_eq_true_2 (g ∈ g :: gws))
        by apply list_elem_of_here.
      destruct (hp !! g) as [sg|] eqn:Eg; [|now rewrite Eg].
      destruct (decide (router.out sg = c)) as [Hc|Hc].
      * rewrite lookup_insert_eq. cbn.
        rewrite (bool_decide_eq_true_2 (router.out sg = c)) by done.
        now destruct (bool_decide (g ∈ gws)).
      * rewrite Eg. cbn.
        rewrite (bool_decide_eq_false_2 (router.out sg = c)) by done.
        now rewrite andb_false_r.
    + assert (Hmem : bool_decide (l ∈ g :: gws) = bool_decide (l ∈ gws))
        by (apply bool_decide_ext; rewrite elem_of_cons; tauto).
      rewrite Hmem.
      destruct (hp !! g) as [sg|] eqn:Eg; [|reflexivity].
      destruct (decide (router.out sg = c)); [|reflexivity].
      now rewrite lookup_insert_ne.
Qed.



Lemma elem_of_map_to_list_keys {V : Type} (m : gmap string V) (k : string) :
  k ∈ (map_to_list m).*1 <-> is_Some (m !! k).
Proof.
  rewrite list_elem_of_fmap. split.
  - intros ([k' v] & -> & Hin). apply elem_of_map_to_list in Hin. eauto.
  - intros [v Hv]. exists (k, v). split; [reflexivity|].
    now apply elem_of_map_to_list.
Qed.

Lemma registry_ok_lookup (r : router.Router) (k : string) (l : router.loc) :
  router.registry_ok r = true ->
  router.servers r !! k = Some l ->
  exists s, router.heap r !! l = Some s /\ router.name s = k.
Proof.
  unfold router.registry_ok. intros Hok Hk.
  apply bool_decide_eq_true_1 in Hok. specialize (Hok k l Hk).
  cbv beta in Hok.
  destruct (router.heap r !! l) as [s|]; cbn in Hok; [|discriminate].
  exists s. split; [reflexivity|]. congruence.
Qed.

Section RouteFacts.

Variable range_map : forall V : Type, nat -> gmap string V -> list (string * V).
Hypothesis range_map_perm :
  forall (V : Type) (k : nat) (m : gmap string V),
    range_map V k m ≡ₚ map_to_list m.

(** Ranging over the servers of a well-kept registry visits each
    registered name once. *)
Lemma range_servers_names (k : nat) (r : router.Router) :
  router.registry_ok r = true ->
  router.name <$> router.range_servers range_map k r
  ≡ₚ (map_to_list (router.servers r)).*1.
Proof.
  intros Hok. unfold router.range_servers.
  rewrite <- (range_map_perm nat k (router.servers r)).
  assert (Hall : forall kv, kv ∈ range_map nat k (router.servers r) ->
                   router.name <$> router.heap r !! kv.2 = Some kv.1).
  { intros [n l] Hin. rewrite range_map_perm in Hin.
    apply elem_of_map_to_list in Hin. cbn [fst snd].
    destruct (registry_ok_lookup r n l Hok Hin) as (s & -> & <-).
    reflexivity. }
  induction (range_map nat k (router.servers r)) as [|kv L IH];
    [reflexivity|].
  cbn. pose proof (Hall kv ltac:(left)) as Hkv.
  destruct (router.heap r !! kv.2) as [s|]; [|discriminate].
  cbn in *. injection Hkv as ->.
  rewrite IH; [reflexivity|]. intros kv' Hin. apply Hall. now right.
Qed.

Lemma prefixMap_lookup (xs : list router.Server) (m : gmap string bool)
      (k : string) :
  is_Some (foldl (fun m server => <[router.name server := true]> m) m xs !! k)
  <-> is_Some (m !! k) \/ k ∈ router.name <$> xs.
Proof.
  revert m. induction xs as [|x xs IH]; intros m; cbn [foldl fmap list_fmap].
  - rewrite elem_of_nil. tauto.
  - rewrite IH, elem_of_cons.
    destruct (decide (k = router.name x)) as [->|Hne].
    + rewrite lookup_insert_eq. split; [tauto|]. intros _. left. eauto.
    + rewrite lookup_insert_ne by done. tauto.
Qed.

(** C6. [C2S_Route] on a registry that keeps every server under its own
    name.  With [ServerList] equal to ["*"] the message goes once to each
    registered server name, in some order: the gateway list plays no part,
    so a server that is also a gateway gets it once.  With any other list
    the names are taken in order, a registered name has [Name] and [Data]
    sent verbatim to its connection and an unknown name is skipped.  The
    registry is left as it is. *)
Theorem C2S_Route_delivery (ctx : cmd.Context) (args : router.ForwardArgs)
        (r : router.Router) :
  router.registry_ok r = true ->
  (router.ServerList args = ["*"%string] ->
   exists (names : list string) (evs : list router.Event),
     names ≡ₚ (map_to_list (router.servers r)).*1
     /\ NoDup names
     /\ router.C2S_Route range_map ctx args r = (r, evs)
     /\ Forall2 (fun n ev =>
                   exists s, router.GetServer r n = Some s
                     /\ ev = router.WriteJSON (router.out s)
                               (router.Name args) (router.Data args))
                names evs)
  /\ (router.ServerList args <> ["*"%string] ->
      router.C2S_Route range_map ctx args r =
      (r, omap (fun n =>
                  (fun s => router.WriteJSON (router.out s)
                              (router.Name args) (router.Data args))
                    <$> router.GetServer r n)
               (router.ServerList args))).
Proof.
  intros Hok. split.
  - intros Hstar. unfold router.C2S_Route. rewrite Hstar.
    cbn [length lookup list_lookup bool_decide andb].
    rewrite !bool_decide_eq_true_2 by reflexivity. cbn [andb].
    set (prefixMap := foldl _ ∅ _).
    set (names := (range_map bool 1 prefixMap).*1).
    assert (Hperm : names ≡ₚ (map_to_list (router.servers r)).*1).
    { unfold names. rewrite range_map_perm.
      apply NoDup_Permutation; try apply NoDup_fst_map_to_list.
      intros k. rewrite !elem_of_map_to_list_keys.
      unfold prefixMap. rewrite prefixMap_lookup, lookup_empty.
      rewrite (range_servers_names 0 r Hok), elem_of_map_to_list_keys.
      split; [intros [[? [=]]|H]; exact H | tauto]. }
    exists names. eexists. split; [exact Hperm|]. split.
    { rewrite Hperm. apply NoDup_fst_map_to_list. }
    split; [reflexivity|].
    assert (Hreg : forall n, n ∈ names ->
                     is_Some (router.GetServer r n)).
    { intros n Hn. rewrite Hperm in Hn.
      apply elem_of_map_to_list_keys in Hn as [l Hl].
      destruct (registry_ok_lookup r n l Hok Hl) as (s & Hs & _).
      exists s. unfold router.GetServer. rewrite Hl. exact Hs. }
    clear Hperm. induction names as [|n names IH]; [constructor|].
    cbn [omap list_omap].
    destruct (Hreg n ltac:(left)) as [s Hs]. rewrite Hs.
    constructor; [eauto|]. apply IH. intros n' Hn'. apply Hreg. now right.
  - intros Hother. unfold router.C2S_Route.
    assert (Hcond : bool_decide (length (router.ServerList args) = 1%nat)
                    && bool_decide (router.ServerList args !! 0%nat
                                    = Some "*"%string) = false).
    { apply not_true_is_false. intros Hc. apply Hother.
      apply andb_true_iff in Hc as [H1 H2].
      apply bool_decide_eq_true_1 in H1, H2.
      destruct (router.ServerList args) as [|a [|b l]]; try discriminate.
      cbn in H2. congruence. }
    rewrite Hcond. reflexivity.
Qed.

End RouteFacts.

Lemma C2S_Route_delivery_witness :
  router.registry_ok router.example_registry = true
  /\ exists (names : list string) (evs : list router.Event),
       names ≡ₚ (map_to_list (router.servers router.example_registry)).*1
       /\ NoDup names
       /\ router.C2S_Route router.range_in_map_order
            (cmd.mkContext 9%nat "" false)
            (router.mkForwardArgs ["*"%string] "S2C_Notice"
                                  (router.JStr "maintenance"))
            router.example_registry
          = (router.example_registry, evs)
       /\ Forall2 (fun n ev =>
                     exists s,
                       router.GetServer router.example_registry n = Some s
                       /\ ev = router.WriteJSON (router.out s) "S2C_Notice"
                                 (router.JStr "maintenance"))
                  names evs.
Proof.
  assert (Hok : router.registry_ok router.example_registry = true)
    by (vm_compute; reflexivity).
  split; [exact Hok|].
  destruct (C2S_Route_delivery router.range_in_map_order
              (fun V k m => reflexivity (map_to_list m))
              (cmd.mkContext 9%nat "" false)
              (router.mkForwardArgs ["*"%string] "S2C_Notice"
                                    (router.JStr "maintenance"))
              router.example_registry Hok) as [Hstar _].
  exact (Hstar eq_refl).
Defined.

(** ** The registry across handler runs *)

Lemma registry_ok_intro (r : router.Router) :
  (forall k l, router.servers r !! k = Some l ->
               router.name <$> router.heap r !! l = Some k) ->
  router.registry_ok r = true.
Proof. intros H. unfold router.registry_ok. now apply bool_decide_eq_true_2. Qed.

Lemma registry_ok_name (r : router.Router) (k : string) (l : router.loc) :
  router.registry_ok r = true ->
  router.servers r !! k = Some l ->
  router.name <$> router.heap r !! l = Some k.
Proof.
  intros Hok Hk. destruct (registry_ok_lookup r k l Hok Hk) as (s & -> & <-).
  reflexivity.
Qed.

Lemma AddServer_new_object (l : router.loc) (new : router.Server)
      (r : router.Router) :
  let r' := router.AddServer l (router.set_heap r (<[l := new]> (router.heap r))) in
  router.servers r' =
    match router.servers r !! router.name new with
    | Some _ => router.servers r
    | None => <[router.name new := l]> (router.servers r)
    end
  /\ router.heap r' =
    match router.servers r !! router.name new with
    | Some l0 => alter (router.reregistered new) l0 (<[l := new]> (router.heap r))
    | None => <[l := new]> (router.heap r)
    end.
Proof.
  unfold router.AddServer. cbn [router.heap router.servers router.set_heap].
  rewrite lookup_insert_eq.
  destruct (router.servers r !! router.name new); split; reflexivity.
Qed.

Lemma registry_ok_AddServer (l : router.loc) (new : router.Server)
      (r : router.Router) :
  router.registry_ok r = true ->
  router.heap r !! l = None ->
  router.registry_ok
    (router.AddServer l (router.set_heap r (<[l := new]> (router.heap r))))
  = true.
Proof.
  intros Hok Hfresh. apply registry_ok_intro. intros k l' Hk.
  destruct (AddServer_new_object l new r) as [Hs Hh].
  rewrite Hs in Hk. rewrite Hh. clear Hs Hh.
  destruct (router.servers r !! router.name new) as [l0|] eqn:E0.
  - pose proof (registry_ok_name r k l' Hok Hk) as Hl'.
    assert (l' <> l) by (intros ->; rewrite Hfresh in Hl'; discriminate).
    destruct (decide (l' = l0)) as [->|Hne].
    + rewrite lookup_alter_eq, lookup_insert_ne by done.
      destruct (router.heap r !! l0); [exact Hl'|discriminate].
    + rewrite lookup_alter_ne, lookup_insert_ne by done. exact Hl'.
  - destruct (decide (k = router.name new)) as [->|Hne].
    + rewrite lookup_insert_eq in Hk. injection Hk as <-.
      now rewrite lookup_insert_eq.
    + rewrite lookup_insert_ne in Hk by done.
      pose proof (registry_ok_name r k l' Hok Hk) as Hl'.
      assert (l' <> l) by (intros ->; rewrite Hfresh in Hl'; discriminate).
      now rewrite lookup_insert_ne.
Qed.

Lemma GetServer_AddServer_other (l : router.loc) (new : router.Server)
      (r : router.Router) (n : string) :
  router.registry_ok r = true ->
  router.heap r !! l = None ->
  n <> router.name new ->
  router.GetServer
    (router.AddServer l (router.set_heap r (<[l := new]> (router.heap r)))) n
  = router.GetServer r n.
Proof.
  intros Hok Hfresh Hn. unfold router.GetServer.
  destruct (AddServer_new_object l new r) as [Hs Hh].
  rewrite Hs, Hh. clear Hs Hh.
  destruct (router.servers r !! router.name new) as [l0|] eqn:E0.
  - destruct (router.servers r !! n) as [ln|] eqn:En; [|reflexivity]. cbn.
    pose proof (registry_ok_name r n ln Hok En) as Hln.
    pose proof (registry_ok_name r _ l0 Hok E0) as Hl0.
    assert (ln <> l) by (intros ->; rewrite Hfresh in Hln; discriminate).
    assert (ln <> l0) by (intros ->; congruence).
    now rewrite lookup_alter_ne, lookup_insert_ne.
  - rewrite lookup_insert_ne by done.
    destruct (router.servers r !! n) as [ln|] eqn:En; [|reflexivity]. cbn.
    pose proof (registry_ok_name r n ln Hok En) as Hln.
    assert (ln <> l) by (intros ->; rewrite Hfresh in Hln; discriminate).
    now rewrite lookup_insert_ne.
Qed.

Lemma fresh_loc_unused (r : router.Router) :
  router.heap r !! fresh (dom (router.heap r)) = None.
Proof. apply not_elem_of_dom. apply is_fresh. Qed.

Section RegistryFacts.

Variable range_map : forall V : Type, nat -> gmap string V -> list (string * V).
Variable RemoteAddr : cmd.Conn -> string.

(** The registry after [C2S_Register]: a new object, named as the message
    says and without address when the message has no port, handed to
    [AddServer]. *)
Lemma C2S_Register_router (ctx : cmd.Context) (args : router.Args)
      (r : router.Router) :
  exists new : router.Server,
    router.name new = router.ServerName args
    /\ ((net.SplitHostPort (router.ServerAddr args)).1.2 = ""%string ->
        router.addr new = ""%string)
    /\ (router.C2S_Register range_map RemoteAddr ctx args r).1
       = router.AddServer (fresh (dom (router.heap r)))
           (router.set_heap r
              (<[fresh (dom (router.heap r)) := new]> (router.heap r))).
Proof.
  unfold router.C2S_Register.
  destruct (net.SplitHostPort (router.ServerAddr args)) as [[host port] err].
  eexists. split; [|split]; [| |reflexivity]; [reflexivity|].
  cbn. intros ->. reflexivity.
Qed.

Lemma C2S_Concurrent_router (ctx : cmd.Context) (args : router.Args)
      (r : router.Router) :
  router.servers (router.C2S_Concurrent ctx args r).1 = router.servers r
  /\ forall l,
       router.heap (router.C2S_Concurrent ctx args r).1 !! l =
       (fun s => if bool_decide (l ∈ router.gateways r)
                    && bool_decide (router.out s = cmd.Out ctx)
                 then router.set_weight (router.Weight args) s else s)
         <$> router.heap r !! l.
Proof.
  unfold router.C2S_Concurrent.
  destruct (router.GetServer _ "login");
    (split; [reflexivity | intros l; apply update_weights_lookup]).
Qed.

(** Every handler keeps the registry well kept. *)
Lemma registry_ok_serve (ctx : cmd.Context) (req : router.Request)
      (r : router.Router) :
  router.registry_ok r = true ->
  router.registry_ok (router.serve range_map RemoteAddr ctx req r).1 = true.
Proof.
  intros Hok. destruct req as [a|a|a|a|p|a]; cbn [router.serve]; try exact Hok.
  - destruct (C2S_Register_router ctx a r) as (new & _ & _ & ->).
    apply registry_ok_AddServer; [exact Hok | apply fresh_loc_unused].
  - destruct (C2S_Concurrent_router ctx a r) as [Hs Hh].
    apply registry_ok_intro. intros k l Hk. rewrite Hs in Hk. rewrite Hh.
    pose proof (registry_ok_name r k l Hok Hk) as Hl.
    destruct (router.heap r !! l) as [s|]; [|discriminate]. cbn in *.
    now destruct (_ && _).
Qed.

(** A handler other than a registration of the name [n] leaves the address
    stored under [n] as it is. *)
Lemma GetServerAddr_serve (ctx : cmd.Context) (req : router.Request)
      (r : router.Router) (n : string) :
  router.registry_ok r = true ->
  (forall a, req = router.ReqRegister a -> router.ServerName a <> n) ->
  router.GetServerAddr (router.serve range_map RemoteAddr ctx req r).1 n
  = router.GetServerAddr r n.
Proof.
  intros Hok Hreq.
  destruct req as [a|a|a|a|p|a]; cbn [router.serve]; try reflexivity.
  - destruct (C2S_Register_router ctx a r) as (new & Hname & _ & ->).
    unfold router.GetServerAddr.
    rewrite GetServer_AddServer_other;
      [reflexivity | exact Hok | apply fresh_loc_unused |].
    rewrite Hname. intros ->. now apply (Hreq a).
  - destruct (C2S_Concurrent_router ctx a r) as [Hs Hh].
    unfold router.GetServerAddr, router.GetServer. rewrite Hs.
    destruct (router.servers r !! n) as [l|]; [|reflexivity]. cbn.
    rewrite Hh. destruct (router.heap r !! l) as [s|]; [|reflexivity]. cbn.
    now destruct (_ && _).
Qed.

Lemma serve_all_keeps_address
      (reqs : list (cmd.Context * router.Request)) (r : router.Router)
      (n : string) :
  router.registry_ok r = true ->
  (forall c a, (c, router.ReqRegister a) ∈ reqs -> router.ServerName a <> n) ->
  router.GetServerAddr (router.serve_all range_map RemoteAddr reqs r).1 n
  = router.GetServerAddr r n.
Proof.
  revert r. induction reqs as [|[c req] reqs IH]; intros r Hok Hreqs;
    [reflexivity|].
  cbn [router.serve_all].
  pose proof (registry_ok_serve c req r Hok) as Hok1.
  pose proof (GetServerAddr_serve c req r n Hok) as H1.
  destruct (router.serve range_map RemoteAddr c req r) as [r1 ev1].
  specialize (IH r1 Hok1).
  destruct (router.serve_all range_map RemoteAddr reqs r1) as [r2 ev2].
  cbn [fst] in *. rewrite IH.
  - apply H1. intros a ->. apply (Hreqs c a). left.
  - intros c' a Hin. apply (Hreqs c' a). now right.
Qed.

(** After [AddServer] of an object without address, the lookup of its name
    gives the empty address, whether the name was new or known. *)
Lemma GetServerAddr_AddServer_portless (l : router.loc) (r : router.Router)
      (new : router.Server) :
  router.heap r !! l = Some new ->
  router.addr new = ""%string ->
  router.GetServerAddr (router.AddServer l r) (router.name new) = ""%string.
Proof.
  intros Hl Haddr. unfold router.AddServer. rewrite Hl.
  destruct (router.servers r !! router.name new) as [l0|] eqn:E0.
  - unfold router.GetServerAddr, router.GetServer. cbn. rewrite E0. cbn.
    rewrite lookup_alter_eq.
    destruct (router.heap r !! l0) as [old|]; cbn; [exact Haddr|reflexivity].
  - unfold router.GetServerAddr, router.GetServer. cbn.
    rewrite lookup_insert_eq. cbn. rewrite Hl. exact Haddr.
Qed.

(** C9 (amended). A registration whose [ServerAddr] carries no port is
    answered with [C2S_RegisterOk] and stores the empty address ("no
    service"): after it, and after any further handler runs that do not
    register the same name again, a [C2S_GetServerAddr] for that name, from
    any connection, is answered with [S2C_GetServerAddr] whose [ServerAddr]
    is the empty string. *)
Theorem register_portless_then_GetServerAddr
        (ctx : cmd.Context) (args : router.Args) (r : router.Router) :
  router.registry_ok r = true ->
  (net.SplitHostPort (router.ServerAddr args)).1.2 = ""%string ->
  let '(r1, evs) := router.C2S_Register range_map RemoteAddr ctx args r in
  (exists rest,
     evs = router.WriteJSON (cmd.Out ctx) "C2S_RegisterOk" (router.JObj [])
           :: rest)
  /\ forall later : list (cmd.Context * router.Request),
       (forall c a, (c, router.ReqRegister a) ∈ later ->
                    router.ServerName a <> router.ServerName args) ->
       forall (ctx' : cmd.Context) (args' : router.Args),
         router.ServerName args' = router.ServerName args ->
         router.C2S_GetServerAddr ctx' args'
           (router.serve_all range_map RemoteAddr later r1).1
         = ((router.serve_all range_map RemoteAddr later r1).1,
            [router.WriteJSON (cmd.Out ctx') "S2C_GetServerAddr"
               (router.JObj
                  [("ServerName"%string, router.JStr (router.ServerName args));
                   ("ServerAddr"%string, router.JStr "")])]).
Proof.
  intros Hok Hport.
  assert (Hev : exists rest,
            (router.C2S_Register range_map RemoteAddr ctx args r).2
            = router.WriteJSON (cmd.Out ctx) "C2S_RegisterOk" (router.JObj [])
              :: rest).
  { unfold router.C2S_Register.
    destruct (net.SplitHostPort (router.ServerAddr args)) as [[host port] err].
    eexists. reflexivity. }
  destruct (C2S_Register_router ctx args r) as (new & Hname & Haddr & Hr1).
  specialize (Haddr Hport).
  destruct (router.C2S_Register range_map RemoteAddr ctx args r) as [r1 evs].
  cbn [fst snd] in Hev, Hr1. split; [exact Hev|].
  intros later Hlater ctx' args' Hsame.
  unfold router.C2S_GetServerAddr. rewrite Hsame.
  rewrite serve_all_keeps_address; [| |exact Hlater].
  - rewrite Hr1, <- Hname.
    rewrite GetServerAddr_AddServer_portless;
      [rewrite Hname; reflexivity | apply lookup_insert_eq | exact Haddr].
  - rewrite Hr1. apply registry_ok_AddServer;
      [exact Hok | apply fresh_loc_unused].
Qed.

End RegistryFacts.

(** Every registry that the handlers build up from the empty one is well
    kept. *)
Lemma registry_ok_reachable
      (range_map : forall V : Type, nat -> gmap string V -> list (string * V))
      (RemoteAddr : cmd.Conn -> string)
      (reqs : list (cmd.Context * router.Request)) :
  router.registry_ok
    (router.serve_all range_map RemoteAddr reqs router.empty_router).1 = true.
Proof.
  assert (H : forall r, router.registry_ok r = true ->
              router.registry_ok
                (router.serve_all range_map RemoteAddr reqs r).1 = true).
  { induction reqs as [|[c req] reqs IH]; intros r Hok; [exact Hok|].
    cbn [router.serve_all].
    pose proof (registry_ok_serve range_map RemoteAddr c req r Hok) as Hok1.
    destruct (router.serve range_map RemoteAddr c req r) as [r1 ev1].
    specialize (IH r1 Hok1).
    now destruct (router.serve_all range_map RemoteAddr reqs r1). }
  apply H. reflexivity.
Qed.

Lemma register_portless_then_GetServerAddr_witness :
  let '(r1, evs) :=
    router.C2S_Register router.range_in_map_order
      (fun _ => "10.0.0.7:51234"%string) (cmd.mkContext 1%nat "" false)
      (router.mkArgs "game1" "" [] "generic" 0) router.empty_router in
  (exists rest,
     evs = router.WriteJSON 1%nat "C2S_RegisterOk" (router.JObj []) :: rest)
  /\ forall later : list (cmd.Context * router.Request),
       (forall c a, (c, router.ReqRegister a) ∈ later ->
                    router.ServerName a <> "game1"%string) ->
       forall (ctx' : cmd.Context) (args' : router.Args),
         router.ServerName args' = "game1"%string ->
         router.C2S_GetServerAddr ctx' args'
           (router.serve_all router.range_in_map_order
              (fun _ => "10.0.0.7:51234"%string) later r1).1
         = ((router.serve_all router.range_in_map_order
               (fun _ => "10.0.0.7:51234"%string) later r1).1,
            [router.WriteJSON (cmd.Out ctx') "S2C_GetServerAddr"
               (router.JObj
                  [("ServerName"%string, router.JStr "game1");
                   ("ServerAddr"%string, router.JStr "")])]).
Proof.
  apply (register_portless_then_GetServerAddr router.range_in_map_order
           (fun _ => "10.0.0.7:51234"%string) (cmd.mkContext 1%nat "" false)
           (router.mkArgs "game1" "" [] "generic" 0) router.empty_router).
  - reflexivity.
  - reflexivity.
Defined.

(** C9 (as stated) fails: "game1" registers with an empty [ServerAddr] from
    the remote address 10.0.0.7:51234; the reply to a later
    [C2S_GetServerAddr{ServerName:"game1"}] carries the empty string, not the
    observed host followed by a colon. *)
Lemma register_portless_addr_counterexample :
  let r1 :=
    (router.C2S_Register router.range_in_map_order
       (fun _ => "10.0.0.7:51234"%string) (cmd.mkContext 1%nat "" false)
       (router.mkArgs "game1" "" [] "generic" 0) router.empty_router).1 in
  (router.C2S_GetServerAddr (cmd.mkContext 2%nat "" false)
     (router.mkArgs "game1" "" [] "" 0) r1).2
  = [router.WriteJSON 2%nat "S2C_GetServerAddr"
       (router.JObj [("ServerName"%string, router.JStr "game1");
                     ("ServerAddr"%string, router.JStr "")])]
  /\ (router.C2S_GetServerAddr (cmd.mkContext 2%nat "" false)
        (router.mkArgs "game1" "" [] "" 0) r1).2
     <> [router.WriteJSON 2%nat "S2C_GetServerAddr"
           (router.JObj [("ServerName"%string, router.JStr "game1");
                         ("ServerAddr"%string, router.JStr "10.0.0.7:")])].
Proof.
  assert (H : (router.C2S_GetServerAddr (cmd.mkContext 2%nat "" false)
                 (router.mkArgs "game1" "" [] "" 0)
                 (router.C2S_Register router.range_in_map_order
                    (fun _ => "10.0.0.7:51234"%string)
                    (cmd.mkContext 1%nat "" false)
                    (router.mkArgs "game1" "" [] "generic" 0)
                    router.empty_router).1).2
              = [router.WriteJSON 2%nat "S2C_GetServerAddr"
                   (router.JObj
                      [("ServerName"%string, router.JStr "game1");
                       ("ServerAddr"%string, router.JStr "")])])
    by (vm_compute; reflexivity).
  cbv zeta. rewrite H. split; [reflexivity|discriminate].
Qed.

(** The selection example of the specification: with the weights A:5, B:2
    and C:2 the answer is B or C; once A reports 0 the answer is A. *)
Example best_gateway_example :
  let gw (c : nat) (n a : string) (w : Z) := router.mkServer c n a [] "gateway" w in
  let r :=
    router.mkRouter
      (<[0%nat := gw 1%nat "A" "a:1" 5]>
         (<[1%nat := gw 2%nat "B" "b:1" 2]>
            (<[2%nat := gw 3%nat "C" "c:1" 2]> ∅)))
      (<["A"%string := 0%nat]>
         (<["B"%string := 1%nat]> (<["C"%string := 2%nat]> ∅)))
      [0%nat; 1%nat; 2%nat] in
  router.GetBestGateway r = "b:1"%string
  /\ router.GetBestGateway
       (router.C2S_Concurrent (cmd.mkContext 1%nat "" false)
          (router.mkArgs "" "" [] "" 0) r).1 = "a:1"%string.
Proof. vm_compute. split; reflexivity. Qed.

(** ** Further properties of the frame codec *)

Lemma ReadMessage_header (c : cmd.TCPConn) (b0 hi lo : byte)
      (rest : list byte) :
  cmd.incoming (cmd.rwc c) = b0 :: hi :: lo :: rest ->
  cmd.read_rwc 3 c
  = ([b0; hi; lo], None, cmd.set_rwc c (cmd.set_incoming (cmd.rwc c) rest)).
Proof.
  intros Hin. unfold cmd.read_rwc. rewrite Hin.
  change (b0 :: hi :: lo :: rest) with ([b0; hi; lo] ++ rest).
  change 3%nat with (length [b0; hi; lo]). now rewrite ReadFull_app.
Qed.

(** X1. Control frames: when the type byte is Ping, Pong or Close,
    [ReadMessage] returns the type with no payload and no error after the
    three header bytes, whatever the length field holds; the bytes after
    the header stay in the stream. *)
Theorem ReadMessage_control_frame (c : cmd.TCPConn) (b0 hi lo : byte)
        (rest : list byte) :
  cmd.incoming (cmd.rwc c) = b0 :: hi :: lo :: rest ->
  Z_of_byte b0 = cmd.PingMessage \/ Z_of_byte b0 = cmd.PongMessage
  \/ Z_of_byte b0 = cmd.CloseMessage ->
  cmd.ReadMessage c
  = ((Z_of_byte b0, [], None),
     cmd.set_rwc c (cmd.set_incoming (cmd.rwc c) rest)).
Proof.
  intros Hin Hmt. unfold cmd.ReadMessage.
  rewrite (ReadMessage_header c b0 hi lo rest Hin). cbn [nth].
  destruct Hmt as [E|[E|E]]; rewrite E; reflexivity.
Qed.

Lemma ReadMessage_control_frame_witness :
  cmd.ReadMessage
    (cmd.mkTCPConn (cmd.mkNetConn "10.0.0.7:4000" [xf1; xff; xff; x01] [])
                   "s1" (cmd.mkChan 4 [] false) false)
  = ((cmd.PingMessage, [], None),
     cmd.mkTCPConn (cmd.mkNetConn "10.0.0.7:4000" [x01] [])
                   "s1" (cmd.mkChan 4 [] false) false).
Proof.
  apply (ReadMessage_control_frame
           (cmd.mkTCPConn (cmd.mkNetConn "10.0.0.7:4000" [xf1; xff; xff; x01] [])
                          "s1" (cmd.mkChan 4 [] false) false)
           xf1 xff xff [x01]).
  - reflexivity.
  - left; reflexivity.
Defined.

(** X2. A stream that ends before the three header bytes: [ReadMessage]
    returns the read error, [io.EOF] when nothing arrived and
    [io.ErrUnexpectedEOF] after one or two bytes, with type 0 and no
    payload; what did arrive is consumed. *)
Theorem ReadMessage_short_header (c : cmd.TCPConn) :
  (length (cmd.incoming (cmd.rwc c)) < 3)%nat ->
  cmd.ReadMessage c
  = ((0, [],
      Some (if (length (cmd.incoming (cmd.rwc c)) =? 0)%nat
            then EOF else ErrUnexpectedEOF)),
     cmd.set_rwc c (cmd.set_incoming (cmd.rwc c) [])).
Proof.
  intros Hlen. unfold cmd.ReadMessage, cmd.read_rwc, ReadFull.
  destruct (Nat.ltb_spec (length (cmd.incoming (cmd.rwc c))) 3); [|lia].
  reflexivity.
Qed.

Lemma ReadMessage_short_header_witness :
  cmd.ReadMessage
    (cmd.mkTCPConn (cmd.mkNetConn "10.0.0.7:4000" [x01; x00] [])
                   "s1" (cmd.mkChan 4 [] false) false)
  = ((0, [], Some ErrUnexpectedEOF),
     cmd.mkTCPConn (cmd.mkNetConn "10.0.0.7:4000" [] [])
                   "s1" (cmd.mkChan 4 [] false) false).
Proof.
  apply (ReadMessage_short_header
           (cmd.mkTCPConn (cmd.mkNetConn "10.0.0.7:4000" [x01; x00] [])
                          "s1" (cmd.mkChan 4 [] false) false)).
  simpl. lia.
Defined.

(** X3. The empty payload does not make the round trip: [NewMessageBytes]
    accepts it and returns the bare header with length 0, and [ReadMessage]
    refuses that frame of type Raw or Auth as invalid data, having read the
    header only. *)
Theorem empty_payload_encoded_but_not_decoded (c : cmd.TCPConn) (mt : Z)
        (rest : list byte) :
  mt = cmd.RawMessage \/ mt = cmd.AuthMessage ->
  cmd.NewMessageBytes mt [] = ([byte_of_Z mt; x00; x00], None)
  /\ cmd.ReadMessage
       (cmd.set_rwc c (cmd.set_incoming (cmd.rwc c)
                         ([byte_of_Z mt; x00; x00] ++ rest)))
     = ((mt, [], Some (errors_New "invalid data")),
        cmd.set_rwc c (cmd.set_incoming (cmd.rwc c) rest)).
Proof.
  intros Hmt. split; [reflexivity|].
  unfold cmd.ReadMessage.
  erewrite ReadMessage_header by reflexivity. cbn [nth].
  rewrite Z_of_byte_of_Z.
  destruct Hmt as [E|E]; rewrite E; reflexivity.
Qed.

Lemma empty_payload_encoded_but_not_decoded_witness :
  cmd.NewMessageBytes cmd.RawMessage [] = ([x01; x00; x00], None)
  /\ cmd.ReadMessage
       (cmd.mkTCPConn (cmd.mkNetConn "10.0.0.7:4000" [x01; x00; x00; xf1] [])
                      "s1" (cmd.mkChan 4 [] false) false)
     = ((cmd.RawMessage, [], Some (errors_New "invalid data")),
        cmd.mkTCPConn (cmd.mkNetConn "10.0.0.7:4000" [xf1] [])
                      "s1" (cmd.mkChan 4 [] false) false).
Proof.
  apply (empty_payload_encoded_but_not_decoded
           (cmd.mkTCPConn (cmd.mkNetConn "10.0.0.7:4000" [] [])
                          "s1" (cmd.mkChan 4 [] false) false)
           cmd.RawMessage [xf1]).
  left; reflexivity.
Defined.

(** X4. A type byte that is none of Raw, Auth, Close, Ping and Pong:
    [ReadMessage] returns that type with the invalid-data error after the
    header; the bytes after the header stay in the stream. *)
Theorem ReadMessage_unknown_type (c : cmd.TCPConn) (b0 hi lo : byte)
        (rest : list byte) :
  cmd.incoming (cmd.rwc c) = b0 :: hi :: lo :: rest ->
  Z_of_byte b0 <> cmd.RawMessage -> Z_of_byte b0 <> cmd.AuthMessage ->
  Z_of_byte b0 <> cmd.CloseMessage -> Z_of_byte b0 <> cmd.PingMessage ->
  Z_of_byte b0 <> cmd.PongMessage ->
  cmd.ReadMessage c
  = ((Z_of_byte b0, [], Some (errors_New "invalid data")),
     cmd.set_rwc c (cmd.set_incoming (cmd.rwc c) rest)).
Proof.
  intros Hin Hraw Hauth Hclose Hping Hpong. unfold cmd.ReadMessage.
  rewrite (ReadMessage_header c b0 hi lo rest Hin). cbn [nth].
  apply Z.eqb_neq in Hraw, Hauth, Hclose, Hping, Hpong.
  now rewrite Hraw, Hauth, Hclose, Hping, Hpong.
Qed.

Lemma ReadMessage_unknown_type_witness :
  cmd.ReadMessage
    (cmd.mkTCPConn (cmd.mkNetConn "10.0.0.7:4000" [x02; x00; x01; x61] [])
                   "s1" (cmd.mkChan 4 [] false) false)
  = ((2, [], Some (errors_New "invalid data")),
     cmd.mkTCPConn (cmd.mkNetConn "10.0.0.7:4000" [x61] [])
                   "s1" (cmd.mkChan 4 [] false) false).
Proof.
  apply (ReadMessage_unknown_type
           (cmd.mkTCPConn (cmd.mkNetConn "10.0.0.7:4000" [x02; x00; x01; x61] [])
                          "s1" (cmd.mkChan 4 [] false) false)
           x02 x00 x01 [x61]); [reflexivity | | | | | ]; discriminate.
Defined.

(** X5. A data frame cut short: when the header of a Raw or Auth frame
    announces a valid length and the stream ends before that many bytes,
    [ReadMessage] returns the invalid-data error together with a buffer of
    the announced length that holds the received bytes followed by zeros;
    the stream is consumed. *)
Theorem ReadMessage_truncated_payload (c : cmd.TCPConn) (b0 hi lo : byte)
        (part : list byte) :
  cmd.incoming (cmd.rwc c) = b0 :: hi :: lo :: part ->
  Z_of_byte b0 = cmd.RawMessage \/ Z_of_byte b0 = cmd.AuthMessage ->
  binary.Uint16 hi lo < cmd.maxMessageSize ->
  Z.of_nat (length part) < binary.Uint16 hi lo ->
  cmd.ReadMessage c
  = ((Z_of_byte b0,
      part ++ make_bytes (Z.to_nat (binary.Uint16 hi lo) - length part),
      Some (errors_New "invalid data")),
     cmd.set_rwc c (cmd.set_incoming (cmd.rwc c) [])).
Proof.
  intros Hin Hmt Hmax Hshort. unfold cmd.ReadMessage.
  rewrite (ReadMessage_header c b0 hi lo part Hin). cbn [nth].
  assert (Hctl : (Z_of_byte b0 =? cmd.PingMessage)
                 || (Z_of_byte b0 =? cmd.PongMessage)
                 || (Z_of_byte b0 =? cmd.CloseMessage) = false)
    by (destruct Hmt as [E|E]; rewrite E; reflexivity).
  assert (Hdat : (Z_of_byte b0 =? cmd.AuthMessage)
                 || (Z_of_byte b0 =? cmd.RawMessage) = true)
    by (destruct Hmt as [E|E]; rewrite E; reflexivity).
  rewrite Hctl, Hdat.
  destruct (Z.ltb_spec 0 (binary.Uint16 hi lo)); [|lia].
  destruct (Z.ltb_spec (binary.Uint16 hi lo) cmd.maxMessageSize); [|lia].
  cbn [andb]. unfold cmd.read_rwc, ReadFull.
  cbn [cmd.rwc cmd.set_rwc cmd.incoming cmd.set_incoming].
  destruct (Nat.ltb_spec (length part) (Z.to_nat (binary.Uint16 hi lo)));
    [|lia].
  reflexivity.
Qed.

Lemma ReadMessage_truncated_payload_witness :
  cmd.ReadMessage
    (cmd.mkTCPConn (cmd.mkNetConn "10.0.0.7:4000" [x01; x00; x03; x61] [])
                   "s1" (cmd.mkChan 4 [] false) false)
  = ((cmd.RawMessage, [x61; x00; x00], Some (errors_New "invalid data")),
     cmd.mkTCPConn (cmd.mkNetConn "10.0.0.7:4000" [] [])
                   "s1" (cmd.mkChan 4 [] false) false).
Proof.
  apply (ReadMessage_truncated_payload
           (cmd.mkTCPConn (cmd.mkNetConn "10.0.0.7:4000" [x01; x00; x03; x61] [])
                          "s1" (cmd.mkChan 4 [] false) false)
           x01 x00 x03 [x61]).
  - reflexivity.
  - left; reflexivity.
  - reflexivity.
  - reflexivity.
Defined.

(** A message that [writeMsg] can send and [ReadMessage] gives back: a Raw
    or Auth message of 1 to 32767 bytes, or a control message without
    payload. *)
Lemma encoded_frame_read (c : cmd.TCPConn) (mt : Z) (data rest : list byte) :
  (mt = cmd.RawMessage \/ mt = cmd.AuthMessage)
  /\ 1 <= Z.of_nat (length data) <= 32767
  \/ (mt = cmd.PingMessage \/ mt = cmd.PongMessage \/ mt = cmd.CloseMessage)
     /\ data = [] ->
  exists frame,
    cmd.NewMessageBytes mt data = (frame, None)
    /\ cmd.ReadMessage
         (cmd.set_rwc c (cmd.set_incoming (cmd.rwc c) (frame ++ rest)))
       = ((mt, data, None),
          cmd.set_rwc c (cmd.set_incoming (cmd.rwc c) rest)).
Proof.
  assert (Hmax : cmd.maxMessageSize = 32768) by reflexivity.
  intros [[Hmt Hlen]|[Hmt ->]].
  - eexists. split; [apply NewMessageBytes_accepted; lia|].
    set (n := Z.of_nat (length data)).
    assert (Hu : uint16 n = n) by (unfold uint16; apply Z.mod_small; lia).
    pose proof (Uint16_PutUint16 n ltac:(lia)) as Hput.
    unfold binary.PutUint16 in Hput. rewrite Hu.
    erewrite (ReadMessage_data_frame _ mt n);
      [reflexivity | reflexivity | | exact Hmt | exact Hput | lia
       | unfold n; lia].
    rewrite Z_of_byte_of_Z. destruct Hmt as [E|E]; rewrite E; reflexivity.
  - exists [byte_of_Z mt; x00; x00]. split; [reflexivity|].
    unfold cmd.ReadMessage. erewrite ReadMessage_header by reflexivity.
    cbn [nth]. rewrite Z_of_byte_of_Z.
    destruct Hmt as [E|[E|E]]; rewrite E; reflexivity.
Qed.

(** X6. Frames in sequence: when the messages of a list (Raw or Auth with 1
    to 32767 payload bytes, or Ping, Pong, Close without payload) are
    written with [writeMsg] one after the other to a socket that takes
    every write in full, none of them is refused as too large, [writeMsg]
    returns no error and the socket has received the frames back to back
    after what it held; and [ReadMessage], called as many times on a stream
    that starts with these bytes, returns the same messages in the same
    order without error and leaves the rest of the stream unread.  (A
    write that the socket fails ends the sequence with the socket's
    error.) *)
Theorem frames_written_then_read (a b : cmd.TCPConn)
        (msgs : list (Z * list byte)) (rest : list byte) :
  Forall (fun m =>
            (m.1 = cmd.RawMessage \/ m.1 = cmd.AuthMessage)
            /\ 1 <= Z.of_nat (length m.2) <= 32767
            \/ (m.1 = cmd.PingMessage \/ m.1 = cmd.PongMessage
                \/ m.1 = cmd.CloseMessage) /\ m.2 = []) msgs ->
  exists wire,
    cmd.writeMsgs ((fun m => (None, m)) <$> msgs) a
    = (None, cmd.set_rwc a (cmd.set_outgoing (cmd.rwc a)
                              (cmd.outgoing (cmd.rwc a) ++ wire)))
    /\ cmd.ReadMessages (length msgs)
         (cmd.set_rwc b (cmd.set_incoming (cmd.rwc b) (wire ++ rest)))
       = (msgs, None, cmd.set_rwc b (cmd.set_incoming (cmd.rwc b) rest))
    /\ forall (k : nat) (e : error) (m : Z * list byte)
              (more : list (option (nat * error) * (Z * list byte))),
         Z.of_nat (length m.2) <= cmd.maxMessageSize ->
         (cmd.writeMsgs (((fun m => (None, m)) <$> msgs)
                         ++ (Some (k, e), m) :: more) a).1 = Some e.
Proof.
  intros Hall. revert a. induction Hall as [|[mt data] msgs Hm _ IH]; intros a.
  - exists []. split; [|split].
    + cbn. rewrite app_nil_r. now destruct a as [[? ? ?] ? ? ?].
    + reflexivity.
    + intros k e [mt data] more Hle. cbn [fmap list_fmap app cmd.writeMsgs].
      unfold cmd.writeMsg.
      rewrite (NewMessageBytes_accepted mt data Hle). reflexivity.
  - cbn [fst snd] in Hm.
    destruct (encoded_frame_read b mt data rest Hm)
      as (frame & Henc & _).
    destruct (IH (cmd.set_rwc a (cmd.set_outgoing (cmd.rwc a)
                                   (cmd.outgoing (cmd.rwc a) ++ frame))))
      as (wire & Hw & Hr & Hfail).
    exists (frame ++ wire). split; [|split].
    + cbn [fmap list_fmap cmd.writeMsgs]. unfold cmd.writeMsg. rewrite Henc.
      unfold cmd.write_rwc. rewrite Hw. cbn. now rewrite app_assoc.
    + destruct (encoded_frame_read b mt data (wire ++ rest) Hm)
        as (frame' & Henc' & Hread).
      assert (frame' = frame) as -> by congruence.
      cbn [length cmd.ReadMessages]. rewrite <- app_assoc, Hread.
      rewrite Hr. reflexivity.
    + intros k e m more Hle.
      cbn [fmap list_fmap app cmd.writeMsgs]. unfold cmd.writeMsg.
      rewrite Henc. unfold cmd.write_rwc. now apply Hfail.
Qed.

Lemma frames_written_then_read_witness :
  exists wire,
    cmd.writeMsgs [(None, (cmd.RawMessage, [x61; x62]));
                   (None, (cmd.PingMessage, []));
                   (None, (cmd.AuthMessage, [x7b; x7d]))]
      (cmd.mkTCPConn (cmd.mkNetConn "10.0.0.8:4000" [] [xf2; x00; x00])
                     "a" (cmd.mkChan 4 [] false) false)
    = (None,
       cmd.mkTCPConn (cmd.mkNetConn "10.0.0.8:4000" []
                                    ([xf2; x00; x00] ++ wire))
                     "a" (cmd.mkChan 4 [] false) false)
    /\ cmd.ReadMessages 3
         (cmd.mkTCPConn (cmd.mkNetConn "10.0.0.7:4000" (wire ++ [xff]) [])
                        "b" (cmd.mkChan 4 [] false) false)
       = ([(cmd.RawMessage, [x61; x62]); (cmd.PingMessage, []);
           (cmd.AuthMessage, [x7b; x7d])], None,
          cmd.mkTCPConn (cmd.mkNetConn "10.0.0.7:4000" [xff] [])
                        "b" (cmd.mkChan 4 [] false) false)
    /\ (cmd.writeMsgs [(None, (cmd.RawMessage, [x61; x62]));
                       (None, (cmd.PingMessage, []));
                       (None, (cmd.AuthMessage, [x7b; x7d]));
                       (Some (2%nat, ErrUnexpectedEOF),
                        (cmd.RawMessage, [x63]))]
          (cmd.mkTCPConn (cmd.mkNetConn "10.0.0.8:4000" [] [xf2; x00; x00])
                         "a" (cmd.mkChan 4 [] false) false)).1
       = Some ErrUnexpectedEOF.
Proof.
  assert (Hvalid :
    Forall (fun m : Z * list byte =>
              (m.1 = cmd.RawMessage \/ m.1 = cmd.AuthMessage)
              /\ 1 <= Z.of_nat (length m.2) <= 32767
              \/ (m.1 = cmd.PingMessage \/ m.1 = cmd.PongMessage
                  \/ m.1 = cmd.CloseMessage) /\ m.2 = [])
           [(cmd.RawMessage, [x61; x62]); (cmd.PingMessage, []);
            (cmd.AuthMessage, [x7b; x7d])]).
  { constructor.
    { left. split; [left; reflexivity | cbn; lia]. }
    constructor.
    { right. split; [left; reflexivity | reflexivity]. }
    constructor.
    { left. split; [right; reflexivity | cbn; lia]. }
    constructor. }
  destruct (frames_written_then_read
              (cmd.mkTCPConn (cmd.mkNetConn "10.0.0.8:4000" [] [xf2; x00; x00])
                             "a" (cmd.mkChan 4 [] false) false)
              (cmd.mkTCPConn (cmd.mkNetConn "10.0.0.7:4000" [] [])
                             "b" (cmd.mkChan 4 [] false) false)
              [(cmd.RawMessage, [x61; x62]); (cmd.PingMessage, []);
               (cmd.AuthMessage, [x7b; x7d])] [xff] Hvalid)
    as (wire & Hw & Hr & Hf).
  exists wire. split; [exact Hw|]. split; [exact Hr|].
  apply (Hf 2%nat ErrUnexpectedEOF (cmd.RawMessage, [x63]) []).
  cbn. discriminate.
Defined.

(** X7. Layout of an accepted frame: for a payload of at most 32768 bytes
    [NewMessageBytes] returns, without error, a frame of three more bytes
    than the payload: the low eight bits of the type, the payload length as
    a big-endian 16-bit number, and the payload unchanged. *)
Theorem NewMessageBytes_layout (mt : Z) (data : list byte) :
  Z.of_nat (length data) <= cmd.maxMessageSize ->
  exists b0 hi lo,
    cmd.NewMessageBytes mt data = (b0 :: hi :: lo :: data, None)
    /\ Z_of_byte b0 = mt mod 256
    /\ binary.Uint16 hi lo = Z.of_nat (length data).
Proof.
  intros Hle. do 3 eexists. split; [now apply NewMessageBytes_accepted|].
  split; [apply Z_of_byte_of_Z|].
  assert (Hmax : cmd.maxMessageSize = 32768) by reflexivity.
  set (n := Z.of_nat (length data)) in *.
  assert (Hu : uint16 n = n) by (unfold uint16; apply Z.mod_small; lia).
  pose proof (Uint16_PutUint16 n ltac:(lia)) as Hput.
  unfold binary.PutUint16 in Hput. now rewrite Hu.
Qed.

Lemma NewMessageBytes_layout_witness :
  exists b0 hi lo,
    cmd.NewMessageBytes 0x1f3 [x61] = (b0 :: hi :: lo :: [x61], None)
    /\ Z_of_byte b0 = 0x1f3 mod 256
    /\ binary.Uint16 hi lo = Z.of_nat (length [x61]).
Proof.
  apply (NewMessageBytes_layout 0x1f3 [x61]). cbn. discriminate.
Defined.

(** ** Further properties of the connection *)

Lemma conn_ok_spec (c : cmd.TCPConn) :
  cmd.conn_ok c = true <->
  cmd.isClose c = cmd.chan_closed (cmd.send c)
  /\ (length (cmd.chan_buf (cmd.send c)) <= cmd.chan_cap (cmd.send c))%nat.
Proof.
  unfold cmd.conn_ok. rewrite andb_true_iff, eqb_true_iff, Nat.leb_le. tauto.
Qed.

(** X8. The state of a connection: as long as the closed flag agrees with
    the state of the send channel and the queue is within its capacity,
    neither [Write] nor [Close] panics, and both leave the connection in
    such a state again. *)
Theorem conn_ok_preserved (c : cmd.TCPConn) (data : list byte) :
  cmd.conn_ok c = true ->
  (exists err c', cmd.Write data c = cmd.Done (err, c')
                  /\ cmd.conn_ok c' = true)
  /\ (exists c', cmd.Close c = cmd.Done c' /\ cmd.conn_ok c' = true).
Proof.
  intros Hok. pose proof Hok as Hok0. apply conn_ok_spec in Hok as [Hflag Hlen].
  destruct c as [r sid [cap buf cl] ic]. cbn in Hflag, Hlen. subst cl.
  split.
  - destruct ic.
    + rewrite Write_closed by reflexivity. eauto.
    + destruct (Nat.ltb_spec (length buf) cap).
      * rewrite Write_room by (cbn; done). do 2 eexists.
        split; [reflexivity|].
        apply conn_ok_spec. cbn. rewrite length_app. cbn.
        split; [reflexivity|lia].
      * rewrite Write_full by (cbn; done). eauto.
  - unfold cmd.Close, cmd.chan_close. cbn.
    destruct ic; [eauto|]. eexists. split; [reflexivity|].
    apply conn_ok_spec. cbn. split; [reflexivity|lia].
Qed.

Lemma conn_ok_preserved_witness :
  (exists err c',
     cmd.Write [x61]
       (cmd.mkTCPConn (cmd.mkNetConn "10.0.0.7:4000" [] []) "a"
                      (cmd.mkChan 1 [[x62]] false) false)
     = cmd.Done (err, c') /\ cmd.conn_ok c' = true)
  /\ (exists c',
        cmd.Close
          (cmd.mkTCPConn (cmd.mkNetConn "10.0.0.7:4000" [] []) "a"
                         (cmd.mkChan 1 [[x62]] false) false)
        = cmd.Done c' /\ cmd.conn_ok c' = true).
Proof.
  apply (conn_ok_preserved
           (cmd.mkTCPConn (cmd.mkNetConn "10.0.0.7:4000" [] []) "a"
                          (cmd.mkChan 1 [[x62]] false) false) [x61]).
  reflexivity.
Defined.

(** X9. [Write] is all or nothing: whenever it returns an error the
    connection is exactly as before the call, and whenever it returns nil
    the data stands at the tail of the send queue, behind what was queued,
    and nothing else has changed. *)
Theorem Write_all_or_nothing (data : list byte) (c c' : cmd.TCPConn)
        (err : option error) :
  cmd.Write data c = cmd.Done (err, c') ->
  match err with
  | Some _ => c' = c
  | None =>
    cmd.chan_buf (cmd.send c') = cmd.chan_buf (cmd.send c) ++ [data]
    /\ cmd.chan_cap (cmd.send c') = cmd.chan_cap (cmd.send c)
    /\ cmd.chan_closed (cmd.send c') = false
    /\ cmd.isClose c' = false
    /\ cmd.rwc c' = cmd.rwc c /\ cmd.ssid c' = cmd.ssid c
  end.
Proof.
  unfold cmd.Write, cmd.chan_send. intros HW.
  destruct (cmd.isClose c) eqn:Eic; [now injection HW as <- <-|].
  destruct (cmd.chan_closed (cmd.send c)) eqn:Ecl; [discriminate|].
  destruct (length (cmd.chan_buf (cmd.send c)) <? cmd.chan_cap (cmd.send c))%nat;
    injection HW as <- <-; [|reflexivity].
  cbn. repeat split; try reflexivity; assumption.
Qed.

Lemma Write_all_or_nothing_witness :
  cmd.chan_buf
    (cmd.send
       (cmd.mkTCPConn (cmd.mkNetConn "10.0.0.7:4000" [] []) "a"
                      (cmd.mkChan 2 [[x62]; [x61]] false) false))
  = cmd.chan_buf
      (cmd.send
         (cmd.mkTCPConn (cmd.mkNetConn "10.0.0.7:4000" [] []) "a"
                        (cmd.mkChan 2 [[x62]] false) false)) ++ [[x61]].
Proof.
  exact (proj1 (Write_all_or_nothing [x61]
           (cmd.mkTCPConn (cmd.mkNetConn "10.0.0.7:4000" [] []) "a"
                          (cmd.mkChan 2 [[x62]] false) false)
           (cmd.mkTCPConn (cmd.mkNetConn "10.0.0.7:4000" [] []) "a"
                          (cmd.mkChan 2 [[x62]; [x61]] false) false)
           None eq_refl)).
Defined.

(** X10. The send queue is first in, first out, and sheds what does not
    fit: sending a list of messages one after the other on an open
    connection queues them in order behind what was queued, up to the
    capacity; when all of them fit every call returns nil, and otherwise
    the first call that finds the queue full returns the busy error and
    the queue holds exactly the messages that fitted. *)
Theorem Write_list_fifo (ds : list (list byte)) (c : cmd.TCPConn) :
  cmd.isClose c = false ->
  cmd.chan_closed (cmd.send c) = false ->
  (length (cmd.chan_buf (cmd.send c)) <= cmd.chan_cap (cmd.send c))%nat ->
  cmd.Write_list ds c
  = cmd.Done
      (if (length (cmd.chan_buf (cmd.send c)) + length ds
           <=? cmd.chan_cap (cmd.send c))%nat
       then None else Some (errors_New "write too busy"),
       cmd.set_send c
         (cmd.mkChan (cmd.chan_cap (cmd.send c))
            (cmd.chan_buf (cmd.send c)
             ++ take (cmd.chan_cap (cmd.send c)
                      - length (cmd.chan_buf (cmd.send c))) ds)
            false)).
Proof.
  revert c. induction ds as [|d ds IH]; intros c Hopen Hch Hle.
  - cbn [cmd.Write_list length]. rewrite Nat.add_0_r.
    destruct (Nat.leb_spec (length (cmd.chan_buf (cmd.send c)))
                           (cmd.chan_cap (cmd.send c))); [|lia].
    rewrite take_nil, app_nil_r.
    destruct c as [r sid [cap buf cl] ic]. cbn in *. now subst.
  - cbn [cmd.Write_list].
    destruct (Nat.ltb_spec (length (cmd.chan_buf (cmd.send c)))
                           (cmd.chan_cap (cmd.send c))) as [Hlt|Hge].
    + rewrite Write_room by done. rewrite IH; cbn; try done.
      * rewrite length_app. cbn [length].
        replace (cmd.chan_cap (cmd.send c)
                 - length (cmd.chan_buf (cmd.send c)))%nat
          with (S (cmd.chan_cap (cmd.send c)
                   - (length (cmd.chan_buf (cmd.send c)) + 1)))%nat by lia.
        cbn [take]. rewrite <- app_assoc. cbn [app].
        replace (length (cmd.chan_buf (cmd.send c)) + 1 + length ds)%nat
          with (length (cmd.chan_buf (cmd.send c)) + S (length ds))%nat
          by lia.
        reflexivity.
      * rewrite length_app. cbn. lia.
    + rewrite Write_full by done. cbn [length].
      destruct (Nat.leb_spec (length (cmd.chan_buf (cmd.send c))
                              + S (length ds))
                             (cmd.chan_cap (cmd.send c))); [lia|].
      replace (cmd.chan_cap (cmd.send c)
               - length (cmd.chan_buf (cmd.send c)))%nat with 0%nat by lia.
      cbn [take]. rewrite app_nil_r.
      destruct c as [r sid [cap buf cl] ic]. cbn in *. now subst.
Qed.

Lemma Write_list_fifo_witness :
  cmd.Write_list [[x62]; [x63]; [x64]]
    (cmd.mkTCPConn (cmd.mkNetConn "10.0.0.7:4000" [] []) "a"
                   (cmd.mkChan 3 [[x61]] false) false)
  = cmd.Done
      (Some (errors_New "write too busy"),
       cmd.mkTCPConn (cmd.mkNetConn "10.0.0.7:4000" [] []) "a"
                     (cmd.mkChan 3 [[x61]; [x62]; [x63]] false) false).
Proof.
  apply (Write_list_fifo [[x62]; [x63]; [x64]]
           (cmd.mkTCPConn (cmd.mkNetConn "10.0.0.7:4000" [] []) "a"
                          (cmd.mkChan 3 [[x61]] false) false)).
  - reflexivity.
  - reflexivity.
  - simpl. lia.
Defined.

(** X11. [funcClose] closes the caller's connection and no other: on a
    table in which the caller's connection is open, it marks that
    connection closed and closes its send channel, leaves every other
    connection as it was, a second [funcClose] changes nothing, and a
    [Write] to the closed connection fails while the table stays as it
    is. *)
Theorem funcClose_only_caller (ctx : cmd.Context) (cs : gmap nat cmd.TCPConn)
        (c : cmd.TCPConn) :
  cs !! cmd.Out ctx = Some c ->
  cmd.isClose c = false ->
  cmd.chan_closed (cmd.send c) = false ->
  let cs' := <[cmd.Out ctx := cmd.closed_conn c]> cs in
  cmd.funcClose ctx cs = cmd.Done cs'
  /\ (forall id, id <> cmd.Out ctx -> cs' !! id = cs !! id)
  /\ cmd.funcClose ctx cs' = cmd.Done cs'
  /\ forall data,
       cmd.Write_on (cmd.Out ctx) data cs'
       = cmd.Done (Some (errors_New "connection is closed"), cs').
Proof.
  intros Hc Hopen Hch cs'.
  assert (Hcs' : cs' !! cmd.Out ctx = Some (cmd.closed_conn c))
    by apply lookup_insert_eq.
  split; [|split; [|split]].
  - unfold cmd.funcClose, cmd.Close_on, cmd.Close, cmd.chan_close.
    rewrite Hc, Hopen. cbn. now rewrite Hch.
  - intros id Hne. now apply lookup_insert_ne.
  - unfold cmd.funcClose, cmd.Close_on. rewrite Hcs'.
    rewrite Close_closed by reflexivity. now rewrite insert_id.
  - intros data. unfold cmd.Write_on. rewrite Hcs'.
    rewrite Write_closed by reflexivity. now rewrite insert_id.
Qed.

Lemma funcClose_only_caller_witness :
  let a := cmd.mkTCPConn (cmd.mkNetConn "10.0.0.7:4000" [] []) "a"
                         (cmd.mkChan 2 [[x61]] false) false in
  let b := cmd.mkTCPConn (cmd.mkNetConn "10.0.0.8:4000" [] []) "b"
                         (cmd.mkChan 2 [] false) false in
  let cs : gmap nat cmd.TCPConn := <[1%nat := a]> {[2%nat := b]} in
  cmd.funcClose (cmd.mkContext 1%nat "a" false) cs
  = cmd.Done (<[1%nat := cmd.closed_conn a]> cs)
  /\ (<[1%nat := cmd.closed_conn a]> cs) !! 2%nat = Some b.
Proof.
  intros a b cs.
  destruct (funcClose_only_caller (cmd.mkContext 1%nat "a" false) cs a)
    as (H1 & H2 & _).
  - apply lookup_insert_eq.
  - reflexivity.
  - reflexivity.
  - split; [exact H1|]. cbn in H2. rewrite H2 by lia. reflexivity.
Defined.

(** ** Further properties of the registry and the dispatcher *)

Section DispatchMore.

Variables Handler Value RType Session : Type.
Variable TypeOf : Value -> RType.
Variable NewElem : RType -> cmd.outcome Value.
Variable Unmarshal : list byte -> Value -> Value * option error.
Variable routeMessage : string -> string -> string * string.
Variable GetSession : string -> option Session.
Variable Encode : string -> Value -> list byte * option error.

Local Abbreviation Handle :=
  (cmd.Handle NewElem Unmarshal routeMessage GetSession).
Local Abbreviation Bind := (cmd.Bind TypeOf).

(** X12. [WriteJSON] queues the encoded package or changes nothing: when it
    returns nil the bytes that the encoder produced for the name and the
    body stand at the tail of the send queue; when it returns an error,
    from the encoder or from [Write], the connection is exactly as
    before. *)
Theorem WriteJSON_outcome (name : string) (i : Value) (c c' : cmd.TCPConn)
        (err : option error) :
  cmd.WriteJSON Value Encode name i c = cmd.Done (err, c') ->
  match err with
  | Some _ => c' = c
  | None =>
    (Encode name i).2 = None
    /\ cmd.chan_buf (cmd.send c')
       = cmd.chan_buf (cmd.send c) ++ [(Encode name i).1]
  end.
Proof.
  unfold cmd.WriteJSON. destruct (Encode name i) as [buf [e|]]; intros HW.
  - now injection HW as <- <-.
  - unfold cmd.Write, cmd.chan_send in HW.
    destruct (cmd.isClose c); [now injection HW as <- <-|].
    destruct (cmd.chan_closed (cmd.send c)); [discriminate|].
    destruct (length (cmd.chan_buf (cmd.send c))
              <? cmd.chan_cap (cmd.send c))%nat;
      injection HW as <- <-; [|reflexivity].
    split; reflexivity.
Qed.

(** X13. Service flags: [RegisterService] makes a service active and
    [RemoveService] inactive; [RecoverService] makes a removed service
    active again but does nothing for a name that was never registered or
    removed; and none of the three touches the flag of another name or the
    handler table. *)
Theorem service_flags (s : cmd.CmdSet Handler RType) (n : string) :
  cmd.service_flag (cmd.services (cmd.RegisterService n s)) n = true
  /\ cmd.service_flag (cmd.services (cmd.RemoveService n s)) n = false
  /\ cmd.service_flag
       (cmd.services (cmd.RecoverService n (cmd.RemoveService n s))) n = true
  /\ (cmd.services s !! n = None -> cmd.RecoverService n s = s)
  /\ (forall m, m <> n ->
        cmd.service_flag (cmd.services (cmd.RegisterService n s)) m
        = cmd.service_flag (cmd.services s) m
        /\ cmd.service_flag (cmd.services (cmd.RemoveService n s)) m
           = cmd.service_flag (cmd.services s) m
        /\ cmd.service_flag (cmd.services (cmd.RecoverService n s)) m
           = cmd.service_flag (cmd.services s) m)
  /\ cmd.e (cmd.RegisterService n s) = cmd.e s
  /\ cmd.e (cmd.RemoveService n s) = cmd.e s
  /\ cmd.e (cmd.RecoverService n s) = cmd.e s.
Proof.
  unfold cmd.service_flag, cmd.RegisterService, cmd.RemoveService,
    cmd.RecoverService.
  cbn [cmd.services cmd.e]. rewrite !lookup_insert_eq.
  cbn [cmd.services cmd.e]. rewrite !lookup_insert_eq.
  split; [reflexivity|]. split; [reflexivity|]. split; [reflexivity|].
  split; [now intros ->|]. split.
  - intros m Hne. rewrite !lookup_insert_ne by done.
    split; [reflexivity|]. split; [reflexivity|].
    destruct (cmd.services s !! n); cbn; [|reflexivity].
    now rewrite lookup_insert_ne.
  - split; [reflexivity|]. split; [reflexivity|].
    now destruct (cmd.services s !! n).
Qed.

(** X14. A gateway may route to active services only: for a routed
    identifier whose local name passes the pattern, [Handle] on a gateway
    connection forwards to the caller's session (or drops the message when
    there is none) if the service is active, and returns the invalid-service
    error without any effect if it is not; so the same message is accepted
    after [RegisterService] and refused after [RemoveService]. *)
Theorem Handle_gateway_service_check (s : cmd.CmdSet Handler RType)
        (out : cmd.Conn) (sid messageID : string) (data : list byte)
        (serverName name : string) :
  routeMessage ""%string messageID = (serverName, name) ->
  serverName <> ""%string ->
  name <> ""%string ->
  (forall a, In a (list_ascii_of_string name) -> cmd.isAlnum a = true) ->
  let forwarded :=
    (cmd.Done None,
     match GetSession sid with
     | Some ss =>
       [cmd.SessionRoute (Handler := Handler) (Value := Value) ss serverName
          name (if (length data =? 0)%nat then [x7b; x7d] else data)]
     | None => []
     end) in
  let refused :=
    (cmd.Done (Some (errors_New "gateway try to route invalid service")),
     []) in
  Handle s (cmd.mkContext out sid true) messageID data
  = (if cmd.service_flag (cmd.services s) serverName
     then forwarded else refused)
  /\ Handle (cmd.RegisterService serverName s) (cmd.mkContext out sid true)
       messageID data = forwarded
  /\ Handle (cmd.RemoveService serverName s) (cmd.mkContext out sid true)
       messageID data = refused.
Proof.
  intros Hroute Hsrv Hne Hall forwarded refused.
  assert (H : forall s0 : cmd.CmdSet Handler RType,
            Handle s0 (cmd.mkContext out sid true) messageID data
            = (if cmd.service_flag (cmd.services s0) serverName
               then forwarded else refused)).
  { intros s0. unfold cmd.Handle. rewrite Hroute.
    cbn [cmd.isGateway cmd.Ssid].
    rewrite (MatchString_alnum_true name Hne Hall).
    rewrite (string_length_pos serverName Hsrv).
    destruct (cmd.service_flag (cmd.services s0) serverName); cbn;
      [|reflexivity].
    unfold forwarded. now destruct (GetSession sid). }
  split; [apply H|]. split; rewrite H.
  - unfold cmd.service_flag, cmd.RegisterService. cbn.
    now rewrite lookup_insert_eq.
  - unfold cmd.service_flag, cmd.RemoveService. cbn.
    now rewrite lookup_insert_eq.
Qed.

(** X15. Routed messages never reach a local handler: for an identifier
    with a service name the outcome of [Handle] does not depend on the
    handler table, so binding a handler, even under the very local name of
    the message, changes nothing. *)
Theorem Handle_routed_ignores_handlers (s : cmd.CmdSet Handler RType)
        (ctx : cmd.Context) (messageID : string) (data : list byte)
        (serverName name bound : string) (h0 : Handler) (i : Value) :
  routeMessage ""%string messageID = (serverName, name) ->
  serverName <> ""%string ->
  Handle (Bind bound h0 i s).1 ctx messageID data
  = Handle s ctx messageID data.
Proof.
  intros Hroute Hsrv. unfold cmd.Handle. rewrite Hroute.
  rewrite (string_length_pos serverName Hsrv). reflexivity.
Qed.

(** X16. Bind, then dispatch: after [Bind name h i], take a local
    identifier with that name, and let a fresh value of the bound shape be
    made without panic.  On a gateway connection whose check of the name
    against [^[A-Za-z0-9]+$] fails, [Handle] returns the invalid-id error
    and enqueues nothing.  In every other case (the connection is not a
    gateway, or the name passes) the payload, an empty one taken as "{}",
    is decoded into the fresh value: when that succeeds the handler [h] and
    the decoded argument are handed to the execution queue and [Handle]
    returns nil, and when it fails the decoder's error is returned and
    nothing is enqueued. *)
Theorem Handle_after_Bind (s : cmd.CmdSet Handler RType) (ctx : cmd.Context)
        (messageID name : string) (data : list byte) (h0 : Handler)
        (i zero : Value) :
  routeMessage ""%string messageID = (""%string, name) ->
  NewElem (TypeOf i) = cmd.Done zero ->
  Handle (Bind name h0 i s).1 ctx messageID data
  = if cmd.isGateway ctx && negb (cmd.MatchString_alnum name).1
    then (cmd.Done (Some (errors_New "invalid message id")), [])
    else
      match Unmarshal (if (length data =? 0)%nat then [x7b; x7d] else data)
                      zero with
      | (_, Some err) => (cmd.Done (Some err), [])
      | (args, None) => (cmd.Done None, [cmd.Enqueue ctx h0 args])
      end.
Proof.
  intros Hroute Hnew. unfold cmd.Handle. rewrite Hroute.
  cbn [String.length Nat.ltb Nat.leb cmd.Bind fst cmd.e cmd.services].
  rewrite lookup_insert_eq. cbn [cmd.type_ cmd.h]. rewrite Hnew.
  destruct (cmd.isGateway ctx); [|reflexivity].
  unfold cmd.MatchString_alnum. cbn [fst snd andb].
  now destruct (match name with EmptyString => false | _ => _ end).
Qed.

(** X17. An unbound local identifier: when the identifier has no service
    name and its local name is not in the handler table, [Handle] has no
    effect and returns [errInvalidMessageID]; except on a gateway
    connection when the name fails the check against [^[A-Za-z0-9]+$],
    where the error returned is the invalid-id error of that check. *)
Theorem Handle_unbound_local (s : cmd.CmdSet Handler RType)
        (ctx : cmd.Context) (messageID name : string) (data : list byte) :
  routeMessage ""%string messageID = (""%string, name) ->
  cmd.e s !! name = None ->
  Handle s ctx messageID data
  = (cmd.Done
       (Some (if cmd.isGateway ctx && negb (cmd.MatchString_alnum name).1
              then errors_New "invalid message id"
              else errInvalidMessageID)), []).
Proof.
  intros Hroute Hnone. unfold cmd.Handle. rewrite Hroute, Hnone.
  cbn [String.length Nat.ltb Nat.leb].
  destruct (cmd.isGateway ctx); [|reflexivity].
  unfold cmd.MatchString_alnum. cbn [fst snd andb].
  now destruct (match name with EmptyString => false | _ => _ end).
Qed.

(** X18. The identifier check of a gateway connection comes first: an
    identifier whose local name does not match [^[A-Za-z0-9]+$] is refused
    with the invalid-id error and without effect on a gateway connection
    whether it is routed or local, whatever is bound under that name and
    whatever services are active. *)
Theorem Handle_gateway_check_first (s : cmd.CmdSet Handler RType)
        (out : cmd.Conn) (sid messageID : string) (data : list byte) :
  (let name := (routeMessage ""%string messageID).2 in
   name = ""%string
   \/ exists a, In a (list_ascii_of_string name) /\ cmd.isAlnum a = false) ->
  Handle s (cmd.mkContext out sid true) messageID data
  = (cmd.Done (Some (errors_New "invalid message id")), []).
Proof.
  intros Hbad. unfold cmd.Handle.
  destruct (routeMessage ""%string messageID) as [serverName name].
  cbn [snd] in Hbad. cbn [cmd.isGateway].
  now rewrite (MatchString_alnum_false name Hbad).
Qed.

(** X19. A dispatch that fails has no effect: whenever [Handle] returns an
    error or panics it has neither forwarded nor enqueued anything, and a
    successful one has at most one effect. *)
Theorem Handle_failure_has_no_effect (s : cmd.CmdSet Handler RType)
        (ctx : cmd.Context) (messageID : string) (data : list byte) :
  ((Handle s ctx messageID data).1 <> cmd.Done None ->
   (Handle s ctx messageID data).2 = [])
  /\ (length (Handle s ctx messageID data).2 <= 1)%nat.
Proof.
  unfold cmd.Handle.
  destruct (routeMessage ""%string messageID) as [serverName name].
  set (d := if (length data =? 0)%nat then _ else _).
  assert (Hd : forall r : cmd.outcome (option error) * list (cmd.Effect Handler Value Session),
             r = (cmd.Done None, r.2) /\ (length r.2 <= 1)%nat
             \/ r.2 = [] ->
             (r.1 <> cmd.Done None -> r.2 = []) /\ (length r.2 <= 1)%nat).
  { intros [res effs] [[[= ->] Hl]|Heq]; cbn in *.
    - split; [congruence|exact Hl].
    - subst effs. split; [reflexivity|cbn; lia]. }
  apply Hd.
  destruct (cmd.isGateway ctx);
    [destruct (cmd.MatchString_alnum name) as [m err];
     destruct (bool_decide (err = None) && negb m); [right; reflexivity|]|];
    (destruct (0 <? String.length serverName)%nat;
     [ destruct (_ && negb _); [right; reflexivity|];
       destruct (GetSession (cmd.Ssid ctx)); [left; split; [reflexivity|cbn; lia]|right; reflexivity]
     | destruct (cmd.e s !! name) as [e1|]; [|right; reflexivity];
       destruct (NewElem (cmd.type_ e1)); [|right; reflexivity];
       destruct (Unmarshal d a) as [args [err'|]];
       [right; reflexivity | left; split; [reflexivity|cbn; lia]] ]).
Qed.

End DispatchMore.

Lemma WriteJSON_outcome_witness :
  cmd.chan_buf
    (cmd.send
       (cmd.mkTCPConn (cmd.mkNetConn "10.0.0.7:4000" [] []) "a"
                      (cmd.mkChan 2 [[x61]; [x7b; x7d]] false) false))
  = cmd.chan_buf
      (cmd.send
         (cmd.mkTCPConn (cmd.mkNetConn "10.0.0.7:4000" [] []) "a"
                        (cmd.mkChan 2 [[x61]] false) false))
    ++ [[x7b; x7d]].
Proof.
  exact (proj2 (WriteJSON_outcome (list byte)
           (fun (_ : string) (i : list byte) => (x7b :: i, None))
           "S2C_Ok" [x7d]
           (cmd.mkTCPConn (cmd.mkNetConn "10.0.0.7:4000" [] []) "a"
                          (cmd.mkChan 2 [[x61]] false) false)
           (cmd.mkTCPConn (cmd.mkNetConn "10.0.0.7:4000" [] []) "a"
                          (cmd.mkChan 2 [[x61]; [x7b; x7d]] false) false)
           None eq_refl)).
Defined.

Lemma Handle_gateway_service_check_witness :
  cmd.Handle (Handler := string) (fun _ : string => cmd.Done [])
             (fun data _ => (data, None)) cmd.routeMessage_dotted
             (fun sid => if String.eqb sid "s1" then Some 7%nat else None)
             (cmd.RemoveService "game" cmd.defaultCmdSet)
             (cmd.mkContext 3%nat "s1" true) "game.Enter" [x7b; x7d]
  = (cmd.Done (Some (errors_New "gateway try to route invalid service")), []).
Proof.
  apply (Handle_gateway_service_check string (list byte) string nat
           (fun _ => cmd.Done []) (fun data _ => (data, None))
           cmd.routeMessage_dotted
           (fun sid => if String.eqb sid "s1" then Some 7%nat else None)
           cmd.defaultCmdSet 3%nat "s1" "game.Enter" [x7b; x7d]
           "game" "Enter").
  - reflexivity.
  - discriminate.
  - discriminate.
  - intros a Ha. simpl in Ha.
    repeat (destruct Ha as [<-|Ha]; [reflexivity|]). destruct Ha.
Defined.

Lemma Handle_routed_ignores_handlers_witness :
  cmd.Handle (fun t : string => cmd.Done t)
             (fun _ v => (v, None)) cmd.routeMessage_dotted
             (fun sid => if String.eqb sid "s1" then Some 7%nat else None)
             (cmd.Bind (fun i : string => i) "Enter" "onEnter"%string
                       "*EnterArgs"%string cmd.defaultCmdSet).1
             (cmd.mkContext 3%nat "s1" false) "game.Enter" [x7b; x7d]
  = cmd.Handle (fun t : string => cmd.Done t)
               (fun _ v => (v, None)) cmd.routeMessage_dotted
               (fun sid => if String.eqb sid "s1" then Some 7%nat else None)
               cmd.defaultCmdSet
               (cmd.mkContext 3%nat "s1" false) "game.Enter" [x7b; x7d].
Proof.
  apply (Handle_routed_ignores_handlers string string string nat
           (fun i => i) (fun t => cmd.Done t) (fun _ v => (v, None))
           cmd.routeMessage_dotted
           (fun sid => if String.eqb sid "s1" then Some 7%nat else None)
           cmd.defaultCmdSet (cmd.mkContext 3%nat "s1" false)
           "game.Enter" [x7b; x7d] "game" "Enter" "Enter" "onEnter"%string
           "*EnterArgs"%string).
  - reflexivity.
  - discriminate.
Defined.

Lemma Handle_after_Bind_witness :
  cmd.Handle (fun _ : string => cmd.Done [])
             (fun data (_ : list byte) => (data, None)) cmd.routeMessage_dotted
             (fun sid => if String.eqb sid "s1" then Some 7%nat else None)
             (cmd.Bind (fun _ : list byte => "*Args"%string) "Login"
                       "onLogin"%string [] cmd.defaultCmdSet).1
             (cmd.mkContext 3%nat "s1" true) "Login" []
  = (cmd.Done None,
     [cmd.Enqueue (cmd.mkContext 3%nat "s1" true) "onLogin"%string
                  [x7b; x7d]])
  /\ cmd.Handle (fun _ : string => cmd.Done [])
                (fun data (_ : list byte) => (data, None))
                cmd.routeMessage_dotted
                (fun sid => if String.eqb sid "s1" then Some 7%nat else None)
                (cmd.Bind (fun _ : list byte => "*Args"%string) "C2S_Login"
                          "onLogin"%string [] cmd.defaultCmdSet).1
                (cmd.mkContext 3%nat "s1" true) "C2S_Login" []
     = (cmd.Done (Some (errors_New "invalid message id")), []).
Proof.
  split.
  - apply (Handle_after_Bind string (list byte) string nat
             (fun _ => "*Args"%string) (fun _ => cmd.Done [])
             (fun data _ => (data, None)) cmd.routeMessage_dotted
             (fun sid => if String.eqb sid "s1" then Some 7%nat else None)
             cmd.defaultCmdSet (cmd.mkContext 3%nat "s1" true)
             "Login" "Login" [] "onLogin"%string [] []);
      reflexivity.
  - apply (Handle_after_Bind string (list byte) string nat
             (fun _ => "*Args"%string) (fun _ => cmd.Done [])
             (fun data _ => (data, None)) cmd.routeMessage_dotted
             (fun sid => if String.eqb sid "s1" then Some 7%nat else None)
             cmd.defaultCmdSet (cmd.mkContext 3%nat "s1" true)
             "C2S_Login" "C2S_Login" [] "onLogin"%string [] []);
      reflexivity.
Defined.

Lemma Handle_unbound_local_witness :
  cmd.Handle (Handler := string) (fun _ : string => cmd.Done [])
             (fun data (_ : list byte) => (data, None)) cmd.routeMessage_dotted
             (fun sid => if String.eqb sid "s1" then Some 7%nat else None)
             cmd.defaultCmdSet (cmd.mkContext 3%nat "s1" false)
             "C2S_Nothing" [x7b; x7d]
  = (cmd.Done (Some errInvalidMessageID), [])
  /\ cmd.Handle (Handler := string) (fun _ : string => cmd.Done [])
                (fun data (_ : list byte) => (data, None))
                cmd.routeMessage_dotted
                (fun sid => if String.eqb sid "s1" then Some 7%nat else None)
                cmd.defaultCmdSet (cmd.mkContext 3%nat "s1" true)
                "C2S_Nothing" [x7b; x7d]
     = (cmd.Done (Some (errors_New "invalid message id")), []).
Proof.
  split.
  - apply (Handle_unbound_local string (list byte) string nat
             (fun _ => cmd.Done []) (fun data _ => (data, None))
             cmd.routeMessage_dotted
             (fun sid => if String.eqb sid "s1" then Some 7%nat else None)
             cmd.defaultCmdSet (cmd.mkContext 3%nat "s1" false)
             "C2S_Nothing" "C2S_Nothing" [x7b; x7d]);
      reflexivity.
  - apply (Handle_unbound_local string (list byte) string nat
             (fun _ => cmd.Done []) (fun data _ => (data, None))
             cmd.routeMessage_dotted
             (fun sid => if String.eqb sid "s1" then Some 7%nat else None)
             cmd.defaultCmdSet (cmd.mkContext 3%nat "s1" true)
             "C2S_Nothing" "C2S_Nothing" [x7b; x7d]);
      reflexivity.
Defined.

(** The router's own identifiers hold an underscore: bound or not, a gateway
    connection cannot call them. *)
Lemma Handle_gateway_check_first_witness :
  cmd.Handle (fun _ : string => cmd.Done [])
             (fun data (_ : list byte) => (data, None)) cmd.routeMessage_dotted
             (fun sid => if String.eqb sid "s1" then Some 7%nat else None)
             (cmd.Bind (fun _ : list byte => "*Args"%string) "C2S_Register"
                       "C2S_Register"%string [] cmd.defaultCmdSet).1
             (cmd.mkContext 3%nat "s1" true) "C2S_Register" [x7b; x7d]
  = (cmd.Done (Some (errors_New "invalid message id")), []).
Proof.
  apply (Handle_gateway_check_first string (list byte) string nat
           (fun _ => cmd.Done []) (fun data _ => (data, None))
           cmd.routeMessage_dotted
           (fun sid => if String.eqb sid "s1" then Some 7%nat else None)
           (cmd.Bind (fun _ : list byte => "*Args"%string) "C2S_Register"
                     "C2S_Register"%string [] cmd.defaultCmdSet).1
           3%nat "s1" "C2S_Register" [x7b; x7d]).
  right. exists "_"%char. split; [simpl; tauto | reflexivity].
Defined.

(** ** Host and port strings *)

Lemma IndexByte_ge (s : string) (c : ascii) : -1 <= net.IndexByte s c.
Proof.
  induction s as [|a s IH]; cbn [net.IndexByte]; [lia|].
  destruct (Ascii.eqb a c); [lia|].
  destruct (Z.ltb_spec (net.IndexByte s c) 0); lia.
Qed.

Lemma IndexByte_cons_absent (a : ascii) (s : string) (c : ascii) :
  net.IndexByte (String a s) c = -1 ->
  Ascii.eqb a c = false /\ net.IndexByte s c = -1.
Proof.
  cbn [net.IndexByte]. pose proof (IndexByte_ge s c).
  destruct (Ascii.eqb a c); [discriminate|].
  destruct (Z.ltb_spec (net.IndexByte s c) 0); intros; split; try done; lia.
Qed.

Lemma IndexByte_app_absent (s1 s2 : string) (c : ascii) :
  net.IndexByte s1 c = -1 -> net.IndexByte s2 c = -1 ->
  net.IndexByte (s1 +:+ s2) c = -1.
Proof.
  intros H1 H2. induction s1 as [|a s1 IH]; [exact H2|].
  apply IndexByte_cons_absent in H1 as [Ha H1].
  change (net.IndexByte (String a (s1 +:+ s2)) c = -1).
  cbn [net.IndexByte]. rewrite Ha, (IH H1). reflexivity.
Qed.

Lemma LastIndexByte_absent (s : string) (c : ascii) :
  net.IndexByte s c = -1 -> net.LastIndexByte s c = -1.
Proof.
  induction s as [|a s IH]; [reflexivity|]. intros H.
  apply IndexByte_cons_absent in H as [Ha H].
  cbn [net.LastIndexByte]. rewrite (IH H), Ha. reflexivity.
Qed.

Lemma LastIndexByte_app_sep (s1 s2 : string) (c : ascii) :
  net.LastIndexByte s2 c = -1 ->
  net.LastIndexByte (s1 +:+ String c s2) c = net.len s1.
Proof.
  intros H2. unfold net.len.
  induction s1 as [|a s1 IH].
  - change (net.LastIndexByte (String c s2) c = 0).
    cbn [net.LastIndexByte]. rewrite H2, Ascii.eqb_refl. reflexivity.
  - change (net.LastIndexByte (String a (s1 +:+ String c s2)) c
            = Z.of_nat (S (String.length s1))).
    cbn [net.LastIndexByte]. rewrite IH.
    destruct (Z.leb_spec 0 (Z.of_nat (String.length s1))); lia.
Qed.

Lemma substring_prefix (s1 s2 : string) :
  substring 0 (String.length s1) (s1 +:+ s2) = s1.
Proof.
  induction s1 as [|a s1 IH].
  - now destruct s2.
  - change (String a (substring 0 (String.length s1) (s1 +:+ s2))
            = String a s1).
    now f_equal.
Qed.

Lemma substring_whole (s : string) : substring 0 (String.length s) s = s.
Proof.
  induction s as [|a s IH]; [reflexivity|].
  change (String a (substring 0 (String.length s) s) = String a s).
  now f_equal.
Qed.

Lemma substring_suffix (s1 s2 : string) (a : ascii) :
  substring (String.length s1 + 1) (String.length s2) (s1 +:+ String a s2)
  = s2.
Proof.
  induction s1 as [|b s1 IH]; [apply substring_whole | exact IH].
Qed.

Lemma length_append_sep (s1 s2 : string) (a : ascii) :
  String.length (s1 +:+ String a s2)
  = (String.length s1 + 1 + String.length s2)%nat.
Proof.
  induction s1 as [|b s1 IH]; [reflexivity|].
  change (S (String.length (s1 +:+ String a s2))
          = S (String.length s1 + 1 + String.length s2)).
  now f_equal.
Qed.

(** [SplitHostPort] undoes the joining of a host and a port that hold no
    colon and no bracket. *)
Lemma SplitHostPort_join (host port : string) :
  net.IndexByte host ":" = -1 -> net.IndexByte host "[" = -1 ->
  net.IndexByte host "]" = -1 ->
  net.IndexByte port ":" = -1 -> net.IndexByte port "[" = -1 ->
  net.IndexByte port "]" = -1 ->
  net.SplitHostPort (host +:+ ":" +:+ port) = (host, port, None).
Proof.
  intros Hhc Hho Hhe Hpc Hpo Hpe.
  change (host +:+ ":" +:+ port) with (host +:+ String ":" port).
  unfold net.SplitHostPort.
  rewrite (LastIndexByte_app_sep host port ":" (LastIndexByte_absent _ _ Hpc)).
  assert (Hlen : 0 <= net.len host) by (unfold net.len; lia).
  destruct (Z.ltb_spec (net.len host) 0); [lia|].
  assert (Hfirst : Ascii.eqb (net.byte_at (host +:+ String ":" port) 0) "["
                   = false).
  { destruct host as [|a host]; [reflexivity|].
    apply IndexByte_cons_absent in Hho as [Ha _]. exact Ha. }
  rewrite Hfirst.
  assert (Hhost : net.slice (host +:+ String ":" port) 0 (net.len host)
                  = host).
  { unfold net.slice, net.len. rewrite Z.sub_0_r, Nat2Z.id.
    apply substring_prefix. }
  rewrite Hhost, Hhc. cbn [Z.leb Z.compare].
  assert (Hall : net.slice_from (host +:+ String ":" port) 0
                 = host +:+ String ":" port).
  { unfold net.slice_from, net.slice, net.len. rewrite Z.sub_0_r, Nat2Z.id.
    apply substring_whole. }
  rewrite Hall.
  rewrite (IndexByte_app_absent host (String ":" port) "[" Hho)
    by (cbn; now rewrite Hpo).
  rewrite (IndexByte_app_absent host (String ":" port) "]" Hhe)
    by (cbn; now rewrite Hpe).
  cbn [Z.leb Z.compare]. do 2 f_equal.
  unfold net.slice_from, net.slice, net.len.
  rewrite length_append_sep.
  replace (Z.to_nat (Z.of_nat (String.length host) + 1))
    with (String.length host + 1)%nat by lia.
  replace (Z.to_nat (Z.of_nat (String.length host + 1 + String.length port)
                     - (Z.of_nat (String.length host) + 1)))
    with (String.length port) by lia.
  apply substring_suffix.
Qed.

(** ** Further properties of the router handlers *)

(** After [AddServer] of a new object into a well-kept registry, the lookup
    of its name gives its address, whether the name was new or known. *)
Lemma GetServerAddr_AddServer (l : router.loc) (new : router.Server)
      (r : router.Router) :
  router.registry_ok r = true ->
  router.heap r !! l = None ->
  router.GetServerAddr
    (router.AddServer l (router.set_heap r (<[l := new]> (router.heap r))))
    (router.name new)
  = router.addr new.
Proof.
  intros Hok Hfresh. unfold router.GetServerAddr, router.GetServer.
  destruct (AddServer_new_object l new r) as [Hs Hh]. rewrite Hs, Hh.
  destruct (router.servers r !! router.name new) as [l0|] eqn:E0.
  - rewrite E0. cbn. rewrite lookup_alter_eq.
    destruct (registry_ok_lookup r _ l0 Hok E0) as (old & Hold & _).
    assert (l0 <> l) by congruence.
    rewrite lookup_insert_ne, Hold by done. reflexivity.
  - rewrite lookup_insert_eq. cbn. now rewrite lookup_insert_eq.
Qed.

Section RegistryMore.

Variable range_map : forall V : Type, nat -> gmap string V -> list (string * V).
Variable RemoteAddr : cmd.Conn -> string.

(** The registry after [C2S_Register] of an address with a port: the new
    object carries the host of the message, or the host of the caller's
    remote address when the message names none, joined to the port. *)
Lemma C2S_Register_router_port (ctx : cmd.Context) (args : router.Args)
      (r : router.Router) (host port : string) (err : option error) :
  net.SplitHostPort (router.ServerAddr args) = (host, port, err) ->
  port <> ""%string ->
  exists new : router.Server,
    router.name new = router.ServerName args
    /\ router.addr new
       = ((if decide (host = ""%string)
           then (net.SplitHostPort (RemoteAddr (cmd.Out ctx))).1.1
           else host) +:+ ":" +:+ port)%string
    /\ (router.C2S_Register range_map RemoteAddr ctx args r).1
       = router.AddServer (fresh (dom (router.heap r)))
           (router.set_heap r
              (<[fresh (dom (router.heap r)) := new]> (router.heap r))).
Proof.
  intros Hsplit Hport. unfold router.C2S_Register. rewrite Hsplit.
  eexists. split; [|split]; [| |reflexivity]; [reflexivity|].
  cbn. destruct (decide (port <> ""%string)); [reflexivity|contradiction].
Qed.

(** The address answered for a name after its registration with a port,
    in terms of what [SplitHostPort] makes of the [ServerAddr]. *)
Lemma GetServerAddr_after_register
      (ctx : cmd.Context) (args : router.Args) (r : router.Router)
      (host port : string) (err : option error)
      (later : list (cmd.Context * router.Request)) :
  router.registry_ok r = true ->
  net.SplitHostPort (router.ServerAddr args) = (host, port, err) ->
  port <> ""%string ->
  (forall c a, (c, router.ReqRegister a) ∈ later ->
               router.ServerName a <> router.ServerName args) ->
  router.GetServerAddr
    (router.serve_all range_map RemoteAddr later
       (router.C2S_Register range_map RemoteAddr ctx args r).1).1
    (router.ServerName args)
  = ((if decide (host = ""%string)
      then (net.SplitHostPort (RemoteAddr (cmd.Out ctx))).1.1
      else host) +:+ ":" +:+ port)%string.
Proof.
  intros Hok Hsplit Hport Hlater.
  destruct (C2S_Register_router_port ctx args r host port err Hsplit Hport)
    as (new & Hname & Haddr & Hr1).
  rewrite (serve_all_keeps_address range_map RemoteAddr);
    [| |exact Hlater].
  - rewrite Hr1, <- Hname, GetServerAddr_AddServer, Haddr;
      [reflexivity | exact Hok | apply fresh_loc_unused].
  - rewrite Hr1. apply registry_ok_AddServer;
      [exact Hok | apply fresh_loc_unused].
Qed.

(** X20. Register, then look up: let a server register, on a well-kept
    registry, with a [ServerAddr] made of a host, a colon and a non-empty
    port (host and port without colons and brackets).  A
    [C2S_GetServerAddr] for that name, from any connection and after any
    further handler runs that do not register the name again, is answered
    with the [ServerAddr] as it was sent; and when the host is empty
    (":port") with the host of the registering connection's remote address
    in its place. *)
Theorem register_host_port_then_GetServerAddr
        (ctx : cmd.Context) (args : router.Args) (r : router.Router)
        (host port : string) :
  router.registry_ok r = true ->
  router.ServerAddr args = (host +:+ ":" +:+ port)%string ->
  port <> ""%string ->
  net.IndexByte host ":" = -1 -> net.IndexByte host "[" = -1 ->
  net.IndexByte host "]" = -1 ->
  net.IndexByte port ":" = -1 -> net.IndexByte port "[" = -1 ->
  net.IndexByte port "]" = -1 ->
  forall later : list (cmd.Context * router.Request),
    (forall c a, (c, router.ReqRegister a) ∈ later ->
                 router.ServerName a <> router.ServerName args) ->
    forall (ctx' : cmd.Context) (args' : router.Args),
      router.ServerName args' = router.ServerName args ->
      let r2 :=
        (router.serve_all range_map RemoteAddr later
           (router.C2S_Register range_map RemoteAddr ctx args r).1).1 in
      router.C2S_GetServerAddr ctx' args' r2
      = (r2,
         [router.WriteJSON (cmd.Out ctx') "S2C_GetServerAddr"
            (router.JObj
               [("ServerName"%string, router.JStr (router.ServerName args));
                ("ServerAddr"%string,
                 router.JStr
                   (if decide (host = ""%string)
                    then (net.SplitHostPort (RemoteAddr (cmd.Out ctx))).1.1
                         +:+ ":" +:+ port
                    else router.ServerAddr args))])]).
Proof.
  intros Hok Haddr Hport Hhc Hho Hhe Hpc Hpo Hpe later Hlater ctx' args'
         Hsame r2.
  pose proof (SplitHostPort_join host port Hhc Hho Hhe Hpc Hpo Hpe) as Hsplit.
  rewrite <- Haddr in Hsplit.
  unfold router.C2S_GetServerAddr, r2. rewrite Hsame.
  rewrite (GetServerAddr_after_register ctx args r host port None later
             Hok Hsplit Hport Hlater).
  rewrite Haddr. now destruct (decide (host = ""%string)).
Qed.

(** X21. A registration without port is not announced to the gateways:
    when the registering server is not itself a gateway and its
    [ServerAddr] has no port, none of the messages that [C2S_Register]
    sends is [FUNC_RegisterServiceInGateway]; the caller gets
    [C2S_RegisterOk] first, and whatever else is sent is [S2C_AddGame]. *)
Theorem register_portless_not_announced (ctx : cmd.Context)
        (args : router.Args) (r : router.Router) :
  router.ServerType args <> "gateway"%string ->
  (net.SplitHostPort (router.ServerAddr args)).1.2 = ""%string ->
  exists rest,
    (router.C2S_Register range_map RemoteAddr ctx args r).2
    = router.WriteJSON (cmd.Out ctx) "C2S_RegisterOk" (router.JObj []) :: rest
    /\ Forall (fun ev => match ev with
                         | router.WriteJSON _ n _ => n = "S2C_AddGame"%string
                         end) rest.
Proof.
  intros Hgw Hport. unfold router.C2S_Register.
  destruct (net.SplitHostPort (router.ServerAddr args)) as [[host port] err].
  cbn in Hport. subst port.
  destruct (decide (""%string <> ""%string)) as [Hne|_]; [congruence|].
  cbn [router.typ router.addr router.name router.data snd].
  destruct (decide (router.ServerType args = "gateway"%string));
    [contradiction|].
  destruct (decide (""%string <> ""%string)) as [Hne|_]; [congruence|].
  eexists. split; [reflexivity|].
  rewrite app_nil_r. apply Forall_app. split.
  - destruct (decide (router.ServerType args = "center"%string));
      [|constructor].
    apply List.Forall_map. now apply Forall_true.
  - apply List.Forall_map. now apply Forall_true.
Qed.

(** X22. Reporting a weight twice is reporting it once: a second
    [C2S_Concurrent] with the same report from the same connection leaves
    the registry exactly as the first one left it, the gateways of the
    reporting connection carrying the reported weight. *)
Theorem C2S_Concurrent_idempotent (ctx : cmd.Context) (args : router.Args)
        (r : router.Router) :
  (router.C2S_Concurrent ctx args (router.C2S_Concurrent ctx args r).1).1
  = (router.C2S_Concurrent ctx args r).1
  /\ forall l s,
       l ∈ router.gateways r -> router.heap r !! l = Some s ->
       router.out s = cmd.Out ctx ->
       router.weight
         <$> router.heap
               (router.C2S_Concurrent ctx args
                  (router.C2S_Concurrent ctx args r).1).1 !! l
       = Some (router.Weight args).
Proof.
  assert (Hidem :
    (router.C2S_Concurrent ctx args (router.C2S_Concurrent ctx args r).1).1
    = (router.C2S_Concurrent ctx args r).1); [|split; [exact Hidem|]].
  2:{ intros l s Hin Hl Hout. rewrite Hidem.
      destruct (C2S_Concurrent_router ctx args r) as [_ Hh].
      rewrite Hh, Hl. cbn.
      rewrite (bool_decide_eq_true_2 _ Hin), (bool_decide_eq_true_2 _ Hout).
      reflexivity. }
  assert (Hr1 : forall r0,
            (router.C2S_Concurrent ctx args r0).1
            = router.set_heap r0
                (router.update_weights (cmd.Out ctx) (router.Weight args)
                   (router.gateways r0) (router.heap r0))).
  { intros r0. unfold router.C2S_Concurrent.
    now destruct (router.GetServer _ "login"). }
  rewrite (Hr1 r). rewrite Hr1.
  set (hp1 := router.update_weights _ _ _ (router.heap r)).
  cbn [router.heap router.gateways router.servers router.set_heap].
  unfold router.set_heap. cbn [router.servers router.gateways]. f_equal.
  apply map_eq. intros l. unfold hp1. rewrite !update_weights_lookup.
  destruct (router.heap r !! l) as [s|]; [|reflexivity]. cbn. f_equal.
  destruct (bool_decide (l ∈ router.gateways r)); [|reflexivity].
  destruct (bool_decide (router.out s = cmd.Out ctx)) eqn:E;
    cbn; rewrite E; reflexivity.
Qed.

(** X23. A weight report changes weights only: after [C2S_Concurrent] the
    lookup of every name gives a server with the same connection, address,
    type and data as before, the address answered for the name is the
    same, and the name table and the gateway list are untouched. *)
Theorem C2S_Concurrent_changes_weights_only (ctx : cmd.Context)
        (args : router.Args) (r : router.Router) (n : string) :
  let r' := (router.C2S_Concurrent ctx args r).1 in
  router.servers r' = router.servers r
  /\ router.gateways r' = router.gateways r
  /\ router.GetServerAddr r' n = router.GetServerAddr r n
  /\ match router.GetServer r' n, router.GetServer r n with
     | Some s', Some s =>
       router.out s' = router.out s /\ router.name s' = router.name s
       /\ router.addr s' = router.addr s /\ router.typ s' = router.typ s
       /\ router.data s' = router.data s
     | None, None => True
     | _, _ => False
     end.
Proof.
  intros r'.
  destruct (C2S_Concurrent_router ctx args r) as [Hs Hh]. fold r' in Hs, Hh.
  assert (Hg : router.gateways r' = router.gateways r).
  { unfold r', router.C2S_Concurrent.
    now destruct (router.GetServer _ "login"). }
  split; [exact Hs|]. split; [exact Hg|].
  unfold router.GetServerAddr, router.GetServer. rewrite Hs.
  destruct (router.servers r !! n) as [l|]; cbn; [|tauto].
  rewrite Hh. destruct (router.heap r !! l) as [s|]; cbn; [|tauto].
  destruct (_ && _); cbn; tauto.
Qed.

End RegistryMore.

(** X24. A report from a connection that owns no gateway: when no object
    on the gateway list has the reporting connection, [C2S_Concurrent]
    leaves the whole registry as it is; the best gateway is still computed
    and sent to "login" if there is one. *)
Theorem C2S_Concurrent_foreign_connection (ctx : cmd.Context)
        (args : router.Args) (r : router.Router) :
  (forall l s, l ∈ router.gateways r -> router.heap r !! l = Some s ->
               router.out s <> cmd.Out ctx) ->
  router.C2S_Concurrent ctx args r
  = (r, match router.GetServer r "login" with
        | Some s =>
          [router.WriteJSON (router.out s) "S2C_GetBestGateway"
             (router.JObj [("Address"%string,
                            router.JStr (router.GetBestGateway r))])]
        | None => []
        end).
Proof.
  intros Hforeign.
  assert (Hhp : router.update_weights (cmd.Out ctx) (router.Weight args)
                  (router.gateways r) (router.heap r) = router.heap r).
  { apply map_eq. intros l. rewrite update_weights_lookup.
    destruct (router.heap r !! l) as [s|] eqn:El; [|reflexivity]. cbn. f_equal.
    destruct (bool_decide_reflect (l ∈ router.gateways r)) as [Hin|];
      [|reflexivity].
    rewrite (bool_decide_eq_false_2 _ (Hforeign l s Hin El)). reflexivity. }
  unfold router.C2S_Concurrent. rewrite Hhp.
  assert (Hr : router.set_heap r (router.heap r) = r) by now destruct r.
  rewrite Hr. now destruct (router.GetServer r "login").
Qed.

Lemma register_host_port_then_GetServerAddr_witness :
  router.C2S_GetServerAddr (cmd.mkContext 2%nat "" false)
    (router.mkArgs "gw1" "" [] "" 0)
    (router.serve_all router.range_in_map_order
       (fun _ => "10.0.0.7:51234"%string) []
       (router.C2S_Register router.range_in_map_order
          (fun _ => "10.0.0.7:51234"%string) (cmd.mkContext 1%nat "" false)
          (router.mkArgs "gw1" ":9100" [] "gateway" 0)
          router.empty_router).1).1
  = ((router.serve_all router.range_in_map_order
        (fun _ => "10.0.0.7:51234"%string) []
        (router.C2S_Register router.range_in_map_order
           (fun _ => "10.0.0.7:51234"%string) (cmd.mkContext 1%nat "" false)
           (router.mkArgs "gw1" ":9100" [] "gateway" 0)
           router.empty_router).1).1,
     [router.WriteJSON 2%nat "S2C_GetServerAddr"
        (router.JObj [("ServerName"%string, router.JStr "gw1");
                      ("ServerAddr"%string, router.JStr "10.0.0.7:9100")])]).
Proof.
  apply (register_host_port_then_GetServerAddr router.range_in_map_order
           (fun _ => "10.0.0.7:51234"%string) (cmd.mkContext 1%nat "" false)
           (router.mkArgs "gw1" ":9100" [] "gateway" 0) router.empty_router
           "" "9100");
    try reflexivity.
  - discriminate.
  - intros c a Hin. inversion Hin.
Defined.

Lemma register_portless_not_announced_witness :
  exists rest,
    (router.C2S_Register router.range_in_map_order
       (fun _ => "10.0.0.9:40000"%string) (cmd.mkContext 3%nat "" false)
       (router.mkArgs "game2" "10.0.0.9" [] "generic" 0)
       router.example_registry).2
    = router.WriteJSON 3%nat "C2S_RegisterOk" (router.JObj []) :: rest
    /\ Forall (fun ev => match ev with
                         | router.WriteJSON _ n _ => n = "S2C_AddGame"%string
                         end) rest.
Proof.
  apply (register_portless_not_announced router.range_in_map_order
           (fun _ => "10.0.0.9:40000"%string) (cmd.mkContext 3%nat "" false)
           (router.mkArgs "game2" "10.0.0.9" [] "generic" 0)
           router.example_registry).
  - discriminate.
  - reflexivity.
Defined.

Lemma C2S_Concurrent_foreign_connection_witness :
  router.C2S_Concurrent (cmd.mkContext 1%nat "" false)
    (router.mkArgs "" "" [] "" 40) router.example_registry
  = (router.example_registry, []).
Proof.
  apply (C2S_Concurrent_foreign_connection (cmd.mkContext 1%nat "" false)
           (router.mkArgs "" "" [] "" 40) router.example_registry).
  intros l s Hin Hl. cbn in Hin. apply list_elem_of_singleton in Hin as ->.
  vm_compute in Hl. injection Hl as <-. cbn. discriminate.
Defined.

(** ** Kinds that the deep copy treats alike *)

(** X25. [testKind] sorts the kinds into classes: it is idempotent, and two
    kinds get the same result exactly when they are equal, or both signed
    integer kinds, or both unsigned integer kinds other than [Uintptr], or
    both floating point kinds; every other kind, [Uintptr] and the complex
    kinds among them, is alone in its class. *)
Theorem testKind_classes (k1 k2 : util.Kind) :
  let signed := [util.Int; util.Int8; util.Int16; util.Int32; util.Int64] in
  let unsigned :=
    [util.Uint; util.Uint8; util.Uint16; util.Uint32; util.Uint64] in
  let floats := [util.Float32; util.Float64] in
  util.testKind (util.testKind k1) = util.testKind k1
  /\ (util.testKind k1 = util.testKind k2 <->
      k1 = k2 \/ (In k1 signed /\ In k2 signed)
      \/ (In k1 unsigned /\ In k2 unsigned)
      \/ (In k1 floats /\ In k2 floats)).
Proof.
  cbv zeta. split; [destruct k1; reflexivity|].
  split.
  - destruct k1, k2; cbn; intros H; try discriminate H;
      first [ left; reflexivity
            | right; left; split; tauto
            | right; right; left; split; tauto
            | right; right; right; split; tauto ].
  - intros [->|[[H1 H2]|[[H1 H2]|[H1 H2]]]]; [reflexivity| | |];
      cbn in H1, H2;
      repeat (destruct H1 as [<-|H1]); try contradiction;
      repeat (destruct H2 as [<-|H2]); try contradiction; reflexivity.
Qed.

Lemma announced_none (evs : list router.Event) :
  Forall (fun ev => match ev with
                    | router.WriteJSON _ n _ =>
                      n <> "FUNC_RegisterServiceInGateway"%string
                    end) evs ->
  router.announced evs = [].
Proof.
  induction 1 as [|[c msg body] evs Hev _ IH]; [reflexivity|].
  unfold router.announced in *. cbn [omap list_omap]. rewrite IH.
  destruct body as [| | |[|[key [n| | |]] [|]]]; try reflexivity.
  now rewrite (bool_decide_eq_false_2 _ Hev).
Qed.

Lemma announced_all (c : cmd.Conn) (l : list router.Server) :
  router.announced
    (map (fun server =>
            router.WriteJSON c "FUNC_RegisterServiceInGateway"
              (router.JObj [("Name"%string, router.JStr (router.name server))]))
         l)
  = (fun n => (c, n)) <$> (router.name <$> l).
Proof.
  induction l as [|s l IH]; [reflexivity|].
  unfold router.announced in *. cbn [map omap list_omap].
  rewrite !bool_decide_eq_true_2 by reflexivity. cbn [andb].
  rewrite IH. reflexivity.
Qed.

Section GatewayBootstrap.

Variable range_map : forall V : Type, nat -> gmap string V -> list (string * V).
Hypothesis range_map_perm :
  forall (V : Type) (k : nat) (m : gmap string V),
    range_map V k m ≡ₚ map_to_list m.
Variable RemoteAddr : cmd.Conn -> string.

(** X26. A new gateway is told every service: when a server of type
    gateway registers on a well-kept registry, the
    [FUNC_RegisterServiceInGateway] messages that [C2S_Register] sends all
    go to the registering connection and name, each exactly once, the
    servers registered once the registration is done, the gateway itself
    among them. *)
Theorem register_gateway_learns_services (ctx : cmd.Context)
        (args : router.Args) (r : router.Router) :
  router.registry_ok r = true ->
  router.ServerType args = "gateway"%string ->
  let '(r1, evs) := router.C2S_Register range_map RemoteAddr ctx args r in
  router.announced evs
  ≡ₚ (fun n => (cmd.Out ctx, n)) <$> (map_to_list (router.servers r1)).*1
  /\ is_Some (router.servers r1 !! router.ServerName args).
Proof.
  intros Hok Hgw.
  destruct (C2S_Register_router range_map RemoteAddr ctx args r)
    as (new & Hname & _ & Hr1).
  assert (Hok1 : router.registry_ok
                   (router.C2S_Register range_map RemoteAddr ctx args r).1
                 = true).
  { rewrite Hr1. apply registry_ok_AddServer;
      [exact Hok | apply fresh_loc_unused]. }
  assert (Hin : is_Some
                  ((router.servers
                      (router.C2S_Register range_map RemoteAddr ctx args r).1)
                     !! router.ServerName args)).
  { rewrite Hr1.
    destruct (AddServer_new_object (fresh (dom (router.heap r))) new r)
      as [-> _].
    rewrite Hname.
    destruct (router.servers r !! router.ServerName args) eqn:E;
      [rewrite E; eauto | rewrite lookup_insert_eq; eauto]. }
  revert Hok1 Hin. unfold router.C2S_Register.
  destruct (net.SplitHostPort (router.ServerAddr args)) as [[host port] err].
  cbn [router.typ router.addr router.name router.data fst].
  set (r1 := router.AddServer _ _). intros Hok1 Hin.
  split; [|exact Hin].
  destruct (decide (router.ServerType args = "gateway"%string));
    [|contradiction].
  unfold router.announced. rewrite !omap_app. fold (router.announced).
  rewrite (announced_none [_]) by (repeat constructor; discriminate).
  rewrite announced_none.
  2:{ destruct (decide (router.ServerType args = "center"%string));
        [|constructor].
      apply List.Forall_map. apply Forall_true. intros; discriminate. }
  rewrite announced_none.
  2:{ apply List.Forall_map. apply Forall_true. intros; discriminate. }
  cbn [app].
  rewrite <- (range_servers_names range_map range_map_perm 2 r1 Hok1).
  now rewrite announced_all.
Qed.

End GatewayBootstrap.

Lemma register_gateway_learns_services_witness :
  let '(r1, evs) :=
    router.C2S_Register router.range_in_map_order
      (fun _ => "10.0.0.9:40000"%string) (cmd.mkContext 3%nat "" false)
      (router.mkArgs "gw2" ":9200" [] "gateway" 0) router.example_registry in
  router.announced evs
  ≡ₚ (fun n => (3%nat, n)) <$> (map_to_list (router.servers r1)).*1
  /\ is_Some (router.servers r1 !! "gw2"%string).
Proof.
  apply (register_gateway_learns_services router.range_in_map_order
           (fun V k m => reflexivity (map_to_list m))
           (fun _ => "10.0.0.9:40000"%string) (cmd.mkContext 3%nat "" false)
           (router.mkArgs "gw2" ":9200" [] "gateway" 0)
           router.example_registry).
  - vm_compute. reflexivity.
  - reflexivity.
Defined.
